(** * Expert state machine of the AI debate tool

    A shallow embedding of [backend/app/experts/debater.py],
    [backend/app/experts/consultant.py] and
    [backend/app/prompts/debater_prompt.py], together with the part of
    Python's [string.Template] that these modules rely on.

    Conventions.
    - A Python [str] is a Rocq [string].  The scanner of [Template] only
      inspects the ASCII characters [$], [{], [}], [_], letters and digits, so
      reading a string as its UTF-8 bytes gives the same substitutions.
    - A Python [int] is a [Z].
    - A [dict] with string keys is a [gmap string _].
    - A method is a computation in the monad [M]: it receives the object
      [self], may assign attributes one after the other, and either returns a
      value or raises; the attributes assigned before a [raise] stay assigned.
    - An attribute that [__init__] does not assign has type [option value];
      [None] means that the object has no such attribute yet, and reading it
      raises [AttributeError]. *)

From Stdlib Require Import ZArith String Ascii DecimalString Lia.
From stdpp Require Import base option gmap strings list.

Open Scope string_scope.
Open Scope Z_scope.

(** ** Python values and exceptions *)

Inductive value : Type :=
  | VNone
  | VStr (s : string)
  | VInt (z : Z).

#[global] Instance value_eq_dec : EqDecision value.
Proof. solve_decision. Defined.

Inductive exn : Type :=
  | AttributeError (attr : string)
  | KeyError (key : string)
  | ValueError (msg : string).

#[global] Instance exn_eq_dec : EqDecision exn.
Proof. solve_decision. Defined.

(** [result A] is the outcome of an expression: a raised exception or a
    value. *)
Definition result (A : Type) : Type := exn + A.

Definition Raise {A : Type} (e : exn) : result A := inl e.
Definition Ok {A : Type} (a : A) : result A := inr a.

#[global] Instance result_ret : MRet result := @Ok.
#[global] Instance result_bind : MBind result := fun A B k r =>
  match r with
  | inl e => inl e
  | inr a => k a
  end.

Definition is_ok {A : Type} (r : result A) : bool :=
  match r with
  | inl _ => false
  | inr _ => true
  end.

(** [str(v)] *)
Definition py_str (v : value) : string :=
  match v with
  | VNone => "None"
  | VStr s => s
  | VInt z => NilZero.string_of_int (Z.to_int z)
  end.

(** Truth value of [v], as tested by [or]. *)
Definition truthy (v : value) : bool :=
  match v with
  | VNone => false
  | VStr s => negb (String.eqb s "")
  | VInt z => negb (z =? 0)
  end.

(** [a or b] *)
Definition py_or (a b : value) : value :=
  if truthy a then a else b.

(** [a == b] *)
Definition py_eq (a b : value) : bool :=
  bool_decide (a = b).

(** [d.get(k)] on a [dict[str, str]] *)
Definition dict_get (d : gmap string string) (k : string) : value :=
  match d !! k with
  | Some s => VStr s
  | None => VNone
  end.

(** [d[k]] *)
Definition dict_item {A : Type} (d : gmap string A) (k : string) : result A :=
  match d !! k with
  | Some a => Ok a
  | None => Raise (KeyError k)
  end.

(** ** [string.Template]

    With the default delimiter and identifier pattern, [Template.pattern]
    matches a dollar sign followed by one of four alternatives, tried in this
    order and without regard to case:
    - [escaped]: a second dollar sign;
    - [named]: an identifier, that is an underscore or ASCII letter followed
      by as many underscores, ASCII letters and digits as there are;
    - [braced]: such an identifier between braces;
    - [invalid]: nothing at all.
    [substitute] replaces the matches from left to right: [escaped] by one
    dollar sign, [named] and [braced] by [str(mapping[name])], which raises
    [KeyError] when the name is missing, and [invalid] raises [ValueError]. *)

Module Template.

Definition t : Type := string.

Definition is_lower (c : ascii) : bool :=
  ((97 <=? nat_of_ascii c) && (nat_of_ascii c <=? 122))%nat.
Definition is_upper (c : ascii) : bool :=
  ((65 <=? nat_of_ascii c) && (nat_of_ascii c <=? 90))%nat.
Definition is_digit (c : ascii) : bool :=
  ((48 <=? nat_of_ascii c) && (nat_of_ascii c <=? 57))%nat.

(** [[_a-z]] and [[_a-z0-9]] under [re.IGNORECASE] *)
Definition id_start (c : ascii) : bool :=
  Ascii.eqb c "_" || is_lower c || is_upper c.
Definition id_char (c : ascii) : bool :=
  id_start c || is_digit c.

(** Where the scanner is inside the pattern. *)
Inductive mode : Type :=
  | Text                   (* outside a match *)
  | Dollar                 (* after [$] *)
  | Named (id : string)    (* after [$id], the identifier may go on *)
  | BraceOpen              (* after [${] *)
  | Braced (id : string).  (* after [${id] *)

Definition snoc (s : string) (c : ascii) : string := s +:+ String c "".

(** Python's message goes on with the line and the column of the match. *)
Definition invalid : exn := ValueError "Invalid placeholder in string".

Definition convert (mapping : gmap string value) (id : string) : result string :=
  (v ← dict_item mapping id; Ok (py_str v)).

Fixpoint scan (mapping : gmap string value) (md : mode) (s : string)
  : result string :=
  match s with
  | EmptyString =>
      match md with
      | Text => Ok ""
      | Named id => convert mapping id
      | Dollar | BraceOpen | Braced _ => Raise invalid
      end
  | String c rest =>
      match md with
      | Text =>
          if Ascii.eqb c "$" then scan mapping Dollar rest
          else (r ← scan mapping Text rest; Ok (String c r))
      | Dollar =>
          if Ascii.eqb c "$" then
            (r ← scan mapping Text rest; Ok (String "$" r))
          else if id_start c then scan mapping (Named (String c "")) rest
          else if Ascii.eqb c "{" then scan mapping BraceOpen rest
          else Raise invalid
      | Named id =>
          if id_char c then scan mapping (Named (snoc id c)) rest
          else
            (v ← convert mapping id;
             if Ascii.eqb c "$" then
               (r ← scan mapping Dollar rest; Ok (v +:+ r))
             else
               (r ← scan mapping Text rest; Ok (v +:+ String c r)))
      | BraceOpen =>
          if id_start c then scan mapping (Braced (String c "")) rest
          else Raise invalid
      | Braced id =>
          if id_char c then scan mapping (Braced (snoc id c)) rest
          else if Ascii.eqb c "}" then
            (v ← convert mapping id;
             r ← scan mapping Text rest; Ok (v +:+ r))
          else Raise invalid
      end
  end.

(** [self.substitute] called with the keyword arguments [mapping] *)
Definition substitute (self : t) (mapping : gmap string value) : result string :=
  scan mapping Text self.

End Template.

(** ** Protocol modules

    [backend.app.prompts.*]: each module binds the same six names.  The
    classes reach them through [self._protocol]. *)

Record Protocol : Type := {
  system : Template.t;
  thinking_advice : gmap string string;
  new_argument : gmap string Template.t;
  user_question : Template.t;
  assistant_response : Template.t;
  user_request : Template.t;
}.

(** The double quote character, which the templates contain. *)
Definition dq : string := String (ascii_of_nat 34) "".

(** [backend/app/prompts/debater_prompt.py] *)
Module debater_prompt.

Definition system : Template.t :=
  "You will act as an expert debater named $name engaging in a debate over answers to reading comprehension questions. You will be shown a question and two possible answers, followed by a story. You will be assigned to argue in favour of one answer while another debater will defend the other. A judge, unable to see the story, will decide the winner. Your goal is to persuade the judge that your answer is correct.
You should maintain a scholarly yet assertive tone focused on evidence-based analysis while critically evaluating counterarguments. Do not exceed $word_limit words per argument. A good rule of thumb is that a short paragraph and one quote take approximately 100 words. Please do not include an " +:+ dq +:+
  "In summary" +:+ dq +:+
  ", " +:+ dq +:+
  "In conclusion" +:+ dq +:+
  ", or equivalent paragraph at the end of your argument because more debate rounds will follow.
Structure your output as follows:
<thinking>[THINKING]</thinking>
<argument>[ARGUMENT]</argument>
The judge only sees the output in <argument> tags, so focus on clarity and persuasiveness in this section.
Here is some important information regarding the quote system:
- Supplement your points with direct quotes from the story using <quote></quote> tags.
- An external fact checker will verify quotes. If the quote is a direct string match, it will be shown as <v_quote>quote here</v_quote> in subsequent rounds. If the quote is inaccurate, it will be shown as <u_quote>quote here</u_quote>.
- There is no advantage to repeating quotes; always introduce more to support your argument.
- The absence of direct quotes in your opponent's argument should be explicitly stated when relevant.
Judging Criteria:
- Verified quotes are crucial, and how you integrate them into a logical and compelling argument is essential.
- Deductions for unverified quotes and repeating arguments.
- Points for developing arguments further and introducing new ones.
- Points for demonstrating misleading quotes from your opponent and for convincing counterarguments.
- Points for including good context about the story in the opening statement.".

Definition first_round_thinking : string :=
  "1. Consider what extra context the judge needs to know about the story for your answer to make sense. You should include this context in your argument.
2. Thinking step by step, plan an argument for your position.
3. Select the best quotes from the story to use in your argument.".

Definition second_round_thinking : string :=
  "1. List out the biggest flaws in your opponent's argument.
2. Thinking step by step, critique your opponent's argument.
3. Select the best quotes from the story to disprove your opponent's argument.".

Definition nth_round_thinking : string :=
  "1. List the critiques the opponent has made to your argument.
2. Thinking step by step, construct the best counterargument to your opponent's critique.
3. Select the best quotes from the story to disprove your opponent's critique.".

Definition opening_argument_request : Template.t :=
  "Now it's your turn to construct your opening argument for why the answer to the question " +:+ dq +:+
  "$question" +:+ dq +:+
  " is " +:+ dq +:+
  "$answer_defending" +:+ dq +:+
  ".".

Definition nth_argument_request : Template.t :=
  "Now it's your turn to construct your next argument for why the answer to the question " +:+ dq +:+
  "$question" +:+ dq +:+
  " is " +:+ dq +:+
  "$answer_defending" +:+ dq +:+
  ".".

Definition user_question : Template.t :=
  "Here is the question and the two answers:
<question>$question</question>
<your_answer>$answer_defending</your_answer>
<opponent_answer>$answer_opposing</opponent_answer>
Please restate your position and the position you are arguing against to confirm you understand.".

Definition assistant_response : Template.t :=
  "I understand. I will argue that the answer to the question " +:+ dq +:+
  "$question" +:+ dq +:+
  " is " +:+ dq +:+
  "$answer_defending" +:+ dq +:+
  ". I will argue against the answer " +:+ dq +:+
  "$answer_opposing" +:+ dq +:+
  ".".

Definition user_request : Template.t :=
  "<story>
$story
</story>
Here's the current transcript of the debate:
<transcript>
$transcript
</transcript>

$new_argument_request
First, think about your argument in <thinking></thinking> tags by carrying out these steps:
$thinking_advice
Finally, write your argument in <argument></argument> tags.
Do not exceed $word_limit words.
Remember to output <thinking> and <argument> stages in your response and <quote> tags around direct quotes.".

Definition thinking_advice : gmap string string :=
  {[ "first_round_thinking" := first_round_thinking;
     "second_round_thinking" := second_round_thinking;
     "nth_round_thinking" := nth_round_thinking ]}.

Definition new_argument : gmap string Template.t :=
  {[ "opening_argument_request" := opening_argument_request;
     "nth_argument_request" := nth_argument_request ]}.

Definition module : Protocol :=
  Build_Protocol system thinking_advice new_argument
    user_question assistant_response user_request.

End debater_prompt.

(** ** Expert objects

    One record for the instances of [Consultant], [Debater] and [IDebater]:
    the attributes of [APIClient] (without the provider session, which stands
    for the network), those that [__init__] assigns, and those that the other
    methods assign later. *)

Record Expert : Type := {
  api_key : string;
  provider : string;
  model : string;
  _protocol : Protocol;
  _name : string;
  _word_limit : Z;
  _system : string;
  _thinking_advice : gmap string string;
  _current_round : Z;
  _question : option string;
  _answer_defending : option string;
  _answer_opposing : option string;
  _current_argument : option string;
  _opponent_name : option string;
  _answer_a : option value;
  _answer_b : option value;
  _answer_defending_letter : option string;
  _answer_opposing_letter : option string;
}.

Definition set_current_round (v : Z) (self : Expert) : Expert :=
  {| api_key := self.(api_key); provider := self.(provider);
     model := self.(model); _protocol := self.(_protocol);
     _name := self.(_name); _word_limit := self.(_word_limit);
     _system := self.(_system); _thinking_advice := self.(_thinking_advice);
     _current_round := v; _question := self.(_question);
     _answer_defending := self.(_answer_defending);
     _answer_opposing := self.(_answer_opposing);
     _current_argument := self.(_current_argument);
     _opponent_name := self.(_opponent_name); _answer_a := self.(_answer_a);
     _answer_b := self.(_answer_b);
     _answer_defending_letter := self.(_answer_defending_letter);
     _answer_opposing_letter := self.(_answer_opposing_letter) |}.

Definition set_question (v : option string) (self : Expert) : Expert :=
  {| api_key := self.(api_key); provider := self.(provider);
     model := self.(model); _protocol := self.(_protocol);
     _name := self.(_name); _word_limit := self.(_word_limit);
     _system := self.(_system); _thinking_advice := self.(_thinking_advice);
     _current_round := self.(_current_round); _question := v;
     _answer_defending := self.(_answer_defending);
     _answer_opposing := self.(_answer_opposing);
     _current_argument := self.(_current_argument);
     _opponent_name := self.(_opponent_name); _answer_a := self.(_answer_a);
     _answer_b := self.(_answer_b);
     _answer_defending_letter := self.(_answer_defending_letter);
     _answer_opposing_letter := self.(_answer_opposing_letter) |}.

Definition set_answer_defending (v : option string) (self : Expert) : Expert :=
  {| api_key := self.(api_key); provider := self.(provider);
     model := self.(model); _protocol := self.(_protocol);
     _name := self.(_name); _word_limit := self.(_word_limit);
     _system := self.(_system); _thinking_advice := self.(_thinking_advice);
     _current_round := self.(_current_round); _question := self.(_question);
     _answer_defending := v; _answer_opposing := self.(_answer_opposing);
     _current_argument := self.(_current_argument);
     _opponent_name := self.(_opponent_name); _answer_a := self.(_answer_a);
     _answer_b := self.(_answer_b);
     _answer_defending_letter := self.(_answer_defending_letter);
     _answer_opposing_letter := self.(_answer_opposing_letter) |}.

Definition set_answer_opposing (v : option string) (self : Expert) : Expert :=
  {| api_key := self.(api_key); provider := self.(provider);
     model := self.(model); _protocol := self.(_protocol);
     _name := self.(_name); _word_limit := self.(_word_limit);
     _system := self.(_system); _thinking_advice := self.(_thinking_advice);
     _current_round := self.(_current_round); _question := self.(_question);
     _answer_defending := self.(_answer_defending); _answer_opposing := v;
     _current_argument := self.(_current_argument);
     _opponent_name := self.(_opponent_name); _answer_a := self.(_answer_a);
     _answer_b := self.(_answer_b);
     _answer_defending_letter := self.(_answer_defending_letter);
     _answer_opposing_letter := self.(_answer_opposing_letter) |}.

Definition set_current_argument (v : option string) (self : Expert) : Expert :=
  {| api_key := self.(api_key); provider := self.(provider);
     model := self.(model); _protocol := self.(_protocol);
     _name := self.(_name); _word_limit := self.(_word_limit);
     _system := self.(_system); _thinking_advice := self.(_thinking_advice);
     _current_round := self.(_current_round); _question := self.(_question);
     _answer_defending := self.(_answer_defending);
     _answer_opposing := self.(_answer_opposing); _current_argument := v;
     _opponent_name := self.(_opponent_name); _answer_a := self.(_answer_a);
     _answer_b := self.(_answer_b);
     _answer_defending_letter := self.(_answer_defending_letter);
     _answer_opposing_letter := self.(_answer_opposing_letter) |}.

Definition set_opponent_name (v : option string) (self : Expert) : Expert :=
  {| api_key := self.(api_key); provider := self.(provider);
     model := self.(model); _protocol := self.(_protocol);
     _name := self.(_name); _word_limit := self.(_word_limit);
     _system := self.(_system); _thinking_advice := self.(_thinking_advice);
     _current_round := self.(_current_round); _question := self.(_question);
     _answer_defending := self.(_answer_defending);
     _answer_opposing := self.(_answer_opposing);
     _current_argument := self.(_current_argument); _opponent_name := v;
     _answer_a := self.(_answer_a); _answer_b := self.(_answer_b);
     _answer_defending_letter := self.(_answer_defending_letter);
     _answer_opposing_letter := self.(_answer_opposing_letter) |}.

Definition set_answer_a (v : option value) (self : Expert) : Expert :=
  {| api_key := self.(api_key); provider := self.(provider);
     model := self.(model); _protocol := self.(_protocol);
     _name := self.(_name); _word_limit := self.(_word_limit);
     _system := self.(_system); _thinking_advice := self.(_thinking_advice);
     _current_round := self.(_current_round); _question := self.(_question);
     _answer_defending := self.(_answer_defending);
     _answer_opposing := self.(_answer_opposing);
     _current_argument := self.(_current_argument);
     _opponent_name := self.(_opponent_name); _answer_a := v;
     _answer_b := self.(_answer_b);
     _answer_defending_letter := self.(_answer_defending_letter);
     _answer_opposing_letter := self.(_answer_opposing_letter) |}.

Definition set_answer_b (v : option value) (self : Expert) : Expert :=
  {| api_key := self.(api_key); provider := self.(provider);
     model := self.(model); _protocol := self.(_protocol);
     _name := self.(_name); _word_limit := self.(_word_limit);
     _system := self.(_system); _thinking_advice := self.(_thinking_advice);
     _current_round := self.(_current_round); _question := self.(_question);
     _answer_defending := self.(_answer_defending);
     _answer_opposing := self.(_answer_opposing);
     _current_argument := self.(_current_argument);
     _opponent_name := self.(_opponent_name); _answer_a := self.(_answer_a);
     _answer_b := v;
     _answer_defending_letter := self.(_answer_defending_letter);
     _answer_opposing_letter := self.(_answer_opposing_letter) |}.

Definition set_answer_defending_letter (v : option string) (self : Expert) : Expert :=
  {| api_key := self.(api_key); provider := self.(provider);
     model := self.(model); _protocol := self.(_protocol);
     _name := self.(_name); _word_limit := self.(_word_limit);
     _system := self.(_system); _thinking_advice := self.(_thinking_advice);
     _current_round := self.(_current_round); _question := self.(_question);
     _answer_defending := self.(_answer_defending);
     _answer_opposing := self.(_answer_opposing);
     _current_argument := self.(_current_argument);
     _opponent_name := self.(_opponent_name); _answer_a := self.(_answer_a);
     _answer_b := self.(_answer_b); _answer_defending_letter := v;
     _answer_opposing_letter := self.(_answer_opposing_letter) |}.

Definition set_answer_opposing_letter (v : option string) (self : Expert) : Expert :=
  {| api_key := self.(api_key); provider := self.(provider);
     model := self.(model); _protocol := self.(_protocol);
     _name := self.(_name); _word_limit := self.(_word_limit);
     _system := self.(_system); _thinking_advice := self.(_thinking_advice);
     _current_round := self.(_current_round); _question := self.(_question);
     _answer_defending := self.(_answer_defending);
     _answer_opposing := self.(_answer_opposing);
     _current_argument := self.(_current_argument);
     _opponent_name := self.(_opponent_name); _answer_a := self.(_answer_a);
     _answer_b := self.(_answer_b);
     _answer_defending_letter := self.(_answer_defending_letter);
     _answer_opposing_letter := v |}.

(** ** Methods

    A method runs on [self] and gives back the object as it has left it,
    with what it returned or raised. *)

Definition M (A : Type) : Type := Expert -> Expert * result A.

#[global] Instance M_ret : MRet M := fun A a self => (self, Ok a).
#[global] Instance M_bind : MBind M := fun A B k m self =>
  match m self with
  | (self', inl e) => (self', inl e)
  | (self', inr a) => k a self'
  end.

(** An expression that does not touch [self]. *)
Definition eval {A : Type} (r : result A) : M A := fun self => (self, r).

(** [self.f] for an attribute that [__init__] has assigned. *)
Definition read {A : Type} (f : Expert -> A) : M A :=
  fun self => (self, Ok (f self)).

(** [self.f] for an attribute that may not exist yet. *)
Definition getattr {A : Type} (name : string) (f : Expert -> option A) : M A :=
  fun self =>
    (self, match f self with
           | Some a => Ok a
           | None => Raise (AttributeError name)
           end).

(** [self.f = v] *)
Definition assign (set : Expert -> Expert) : M unit :=
  fun self => (set self, Ok tt).

(** [backend/app/api_clients/base.py] *)
Module APIClient.

(** The client object itself belongs to the provider's library; what is
    kept is whether the provider is one of the two supported. *)
Definition _initialize_client (provider : string) : result unit :=
  if String.eqb provider "openai" then Ok tt
  else if String.eqb provider "anthropic" then Ok tt
  else Raise (ValueError ("Unsupported provider: " +:+ provider)).

End APIClient.

(** Keyword arguments of the three kinds of [substitute] calls. *)
Definition position_kwargs (question answer_defending answer_opposing : string)
  : gmap string value :=
  {[ "question" := VStr question;
     "answer_defending" := VStr answer_defending;
     "answer_opposing" := VStr answer_opposing ]}.

Definition request_kwargs (question answer_defending : string)
  : gmap string value :=
  {[ "question" := VStr question;
     "answer_defending" := VStr answer_defending ]}.

Definition argument_kwargs (story transcript new_argument_request
                            thinking_advice : string) (word_limit : Z)
  : gmap string value :=
  {[ "story" := VStr story;
     "transcript" := VStr transcript;
     "new_argument_request" := VStr new_argument_request;
     "thinking_advice" := VStr thinking_advice;
     "word_limit" := VInt word_limit ]}.

(** [backend/app/experts/debater.py], class [Debater] *)
Module Debater.

Definition __init__ (api_key provider model name : string) (word_limit : Z)
  : result Expert :=
  _ ← APIClient._initialize_client provider;
  let protocol := debater_prompt.module in
  system ← Template.substitute protocol.(system)
             {[ "name" := VStr name; "word_limit" := VInt word_limit ]};
  Ok {| api_key := api_key; provider := provider; model := model;
        _protocol := protocol; _name := name; _word_limit := word_limit;
        _system := system;
        _thinking_advice := protocol.(thinking_advice);
        _current_round := 0;
        _question := None; _answer_defending := None;
        _answer_opposing := None; _current_argument := None;
        _opponent_name := None; _answer_a := None; _answer_b := None;
        _answer_defending_letter := None;
        _answer_opposing_letter := None |}.

Definition initial_position (question answer_defending answer_opposing : string)
  : M string :=
  assign (set_question (Some question));;
  assign (set_answer_defending (Some answer_defending));;
  assign (set_answer_opposing (Some answer_opposing));;
  protocol ← read _protocol;
  q ← getattr "_question" _question;
  d ← getattr "_answer_defending" _answer_defending;
  o ← getattr "_answer_opposing" _answer_opposing;
  eval (Template.substitute protocol.(user_question) (position_kwargs q d o)).

Definition initial_response : M string :=
  protocol ← read _protocol;
  q ← getattr "_question" _question;
  d ← getattr "_answer_defending" _answer_defending;
  o ← getattr "_answer_opposing" _answer_opposing;
  eval (Template.substitute protocol.(assistant_response)
          (position_kwargs q d o)).

Definition construct_argument (story transcript : string) : M string :=
  current_round ← read _current_round;
  (if current_round =? 0 then
     protocol ← read _protocol;
     request ← eval (dict_item protocol.(new_argument)
                       "opening_argument_request");
     q ← getattr "_question" _question;
     d ← getattr "_answer_defending" _answer_defending;
     new_argument_request ←
       eval (Template.substitute request (request_kwargs q d));
     advice ← read _thinking_advice;
     thinking ← eval (dict_item advice "first_round_thinking");
     word_limit ← read _word_limit;
     argument ←
       eval (Template.substitute protocol.(user_request)
               (argument_kwargs story transcript new_argument_request
                  thinking word_limit));
     assign (set_current_argument (Some argument))
   else
     protocol ← read _protocol;
     request ← eval (dict_item protocol.(new_argument)
                       "nth_argument_request");
     q ← getattr "_question" _question;
     d ← getattr "_answer_defending" _answer_defending;
     new_argument_request ←
       eval (Template.substitute request (request_kwargs q d));
     advice ← read _thinking_advice;
     current_round ← read _current_round;
     thinking ← eval (dict_item advice
                        (if current_round =? 1 then "second_round_thinking"
                         else "nth_round_thinking"));
     word_limit ← read _word_limit;
     argument ←
       eval (Template.substitute protocol.(user_request)
               (argument_kwargs story transcript new_argument_request
                  thinking word_limit));
     assign (set_current_argument (Some argument)));;
  current_round ← read _current_round;
  assign (set_current_round (current_round + 1));;
  getattr "_current_argument" _current_argument.

End Debater.

(** [backend/app/experts/consultant.py], class [Consultant] *)
Module Consultant.

Section WithProtocol.

(** The module [backend.app.prompts.consultant_prompt] that the class
    imports as [consultant]; the methods work for whatever it binds. *)
Variable consultant : Protocol.

Definition __init__ (api_key provider model name : string) (word_limit : Z)
  : result Expert :=
  _ ← APIClient._initialize_client provider;
  let protocol := consultant in
  system ← Template.substitute protocol.(system)
             {[ "name" := VStr name; "word_limit" := VInt word_limit ]};
  Ok {| api_key := api_key; provider := provider; model := model;
        _protocol := protocol; _name := name; _word_limit := word_limit;
        _system := system;
        _thinking_advice := protocol.(thinking_advice);
        _current_round := 0;
        _question := None; _answer_defending := None;
        _answer_opposing := None; _current_argument := None;
        _opponent_name := None; _answer_a := None; _answer_b := None;
        _answer_defending_letter := None;
        _answer_opposing_letter := None |}.

End WithProtocol.

Definition initial_position (question answer_defending answer_opposing : string)
  : M string :=
  assign (set_question (Some question));;
  assign (set_answer_defending (Some answer_defending));;
  assign (set_answer_opposing (Some answer_opposing));;
  protocol ← read _protocol;
  q ← getattr "_question" _question;
  d ← getattr "_answer_defending" _answer_defending;
  o ← getattr "_answer_opposing" _answer_opposing;
  eval (Template.substitute protocol.(user_question) (position_kwargs q d o)).

Definition initial_response : M string :=
  protocol ← read _protocol;
  q ← getattr "_question" _question;
  d ← getattr "_answer_defending" _answer_defending;
  o ← getattr "_answer_opposing" _answer_opposing;
  eval (Template.substitute protocol.(assistant_response)
          (position_kwargs q d o)).

Definition construct_argument (story transcript : string) : M string :=
  current_round ← read _current_round;
  (if current_round =? 0 then
     protocol ← read _protocol;
     request ← eval (dict_item protocol.(new_argument)
                       "opening_argument_request");
     q ← getattr "_question" _question;
     d ← getattr "_answer_defending" _answer_defending;
     new_argument_request ←
       eval (Template.substitute request (request_kwargs q d));
     advice ← read _thinking_advice;
     thinking ← eval (dict_item advice "first_round_thinking");
     word_limit ← read _word_limit;
     argument ←
       eval (Template.substitute protocol.(user_request)
               (argument_kwargs story transcript new_argument_request
                  thinking word_limit));
     assign (set_current_argument (Some argument))
   else
     protocol ← read _protocol;
     request ← eval (dict_item protocol.(new_argument)
                       "nth_argument_request");
     q ← getattr "_question" _question;
     d ← getattr "_answer_defending" _answer_defending;
     new_argument_request ←
       eval (Template.substitute request (request_kwargs q d));
     advice ← read _thinking_advice;
     thinking ← eval (dict_item advice "nth_round_thinking");
     word_limit ← read _word_limit;
     argument ←
       eval (Template.substitute protocol.(user_request)
               (argument_kwargs story transcript new_argument_request
                  thinking word_limit));
     assign (set_current_argument (Some argument)));;
  current_round ← read _current_round;
  assign (set_current_round (current_round + 1));;
  getattr "_current_argument" _current_argument.

End Consultant.

(** [backend/app/experts/debater.py], class [IDebater], a subclass of
    [Debater]: it inherits [initial_response] and [construct_argument]. *)
Module IDebater.

Section WithProtocol.

(** The module [backend.app.prompts.interactive_debater_prompt] that the
    class imports as [interactive_debater]; the methods work for whatever it
    binds. *)
Variable interactive_debater : Protocol.

Definition __init__ (api_key provider model name : string) (word_limit : Z)
  : result Expert :=
  self ← Debater.__init__ api_key provider model name word_limit;
  let protocol := interactive_debater in
  system ← Template.substitute protocol.(system)
             {[ "name" := VStr self.(_name);
                "word_limit" := VInt self.(_word_limit) ]};
  Ok {| api_key := api_key; provider := provider; model := model;
        _protocol := protocol; _name := self.(_name);
        _word_limit := self.(_word_limit);
        _system := system;
        _thinking_advice := protocol.(thinking_advice);
        _current_round := 0;
        _question := self.(_question);
        _answer_defending := self.(_answer_defending);
        _answer_opposing := self.(_answer_opposing);
        _current_argument := self.(_current_argument);
        _opponent_name := self.(_opponent_name);
        _answer_a := self.(_answer_a); _answer_b := self.(_answer_b);
        _answer_defending_letter := self.(_answer_defending_letter);
        _answer_opposing_letter := self.(_answer_opposing_letter) |}.

End WithProtocol.

Definition initial_position (question : string)
    (answer_defending answer_opposing : gmap string string)
    (opponent_name : string) : M string :=
  assign (set_question (Some question));;
  assign (set_opponent_name (Some opponent_name));;
  assign (set_answer_a (Some (py_or (dict_get answer_defending "A")
                                    (dict_get answer_opposing "A"))));;
  assign (set_answer_b (Some (py_or (dict_get answer_defending "B")
                                    (dict_get answer_opposing "B"))));;
  answer_a ← getattr "_answer_a" _answer_a;
  assign (set_answer_defending_letter
            (Some (if py_eq answer_a (dict_get answer_defending "A")
                   then "A" else "B")));;
  letter ← getattr "_answer_defending_letter" _answer_defending_letter;
  text ← eval (dict_item answer_defending letter);
  assign (set_answer_defending (Some text));;
  answer_a ← getattr "_answer_a" _answer_a;
  assign (set_answer_opposing_letter
            (Some (if py_eq answer_a (dict_get answer_opposing "A")
                   then "A" else "B")));;
  letter ← getattr "_answer_opposing_letter" _answer_opposing_letter;
  text ← eval (dict_item answer_opposing letter);
  assign (set_answer_opposing (Some text));;
  protocol ← read _protocol;
  q ← getattr "_question" _question;
  a ← getattr "_answer_a" _answer_a;
  b ← getattr "_answer_b" _answer_b;
  dl ← getattr "_answer_defending_letter" _answer_defending_letter;
  ol ← getattr "_answer_opposing_letter" _answer_opposing_letter;
  opponent ← getattr "_opponent_name" _opponent_name;
  eval (Template.substitute protocol.(user_question)
          {[ "question" := VStr q;
             "answer_a" := a;
             "answer_b" := b;
             "answer_defending_letter" := VStr dl;
             "answer_opposing_letter" := VStr ol;
             "opponent_name" := VStr opponent ]}).

Definition initial_response : M string := Debater.initial_response.

Definition construct_argument : string -> string -> M string :=
  Debater.construct_argument.

End IDebater.

(** ** Variants and sessions *)

(** The class of an expert object, which decides the method that a call
    reaches. *)
Inductive variant : Type :=
  | consultant
  | debater
  | interactive_debater.

Definition construct_argument_of (v : variant) : string -> string -> M string :=
  match v with
  | consultant => Consultant.construct_argument
  | debater => Debater.construct_argument
  | interactive_debater => IDebater.construct_argument
  end.

(** A session calls [construct_argument] once per round, with the story and
    the transcript of the moment, and stops at the first call that raises
    (compare the loop of [main] in [backend/app/run_expert/consultant.py]). *)
Fixpoint rounds (call : string -> string -> M string)
    (inputs : list (string * string)) : M (list string) :=
  match inputs with
  | [] => mret []
  | (story, transcript) :: rest =>
      text ← call story transcript;
      texts ← rounds call rest;
      mret (text :: texts)
  end.

(** ** The round policy in the words of the specification

    Phase key: round 0 gives [first]; for a debater round 1 gives [second]
    and every later round [nth]; for a consultant every round after the
    first gives [nth].  Request key: round 0 gives [opening], every later
    round [nth].  The keys are the names under which the protocol modules
    file the texts. *)

Definition thinking_key (v : variant) (round : Z) : string :=
  match v with
  | consultant =>
      if round =? 0 then "first_round_thinking" else "nth_round_thinking"
  | debater | interactive_debater =>
      if round =? 0 then "first_round_thinking"
      else if round =? 1 then "second_round_thinking"
      else "nth_round_thinking"
  end.

Definition new_argument_key (round : Z) : string :=
  if round =? 0 then "opening_argument_request" else "nth_argument_request".

Definition attr {A : Type} (name : string) (o : option A) : result A :=
  match o with
  | Some a => Ok a
  | None => Raise (AttributeError name)
  end.

(** Steps 3 and 4 of the round algorithm for given keys: the new-argument
    request rendered with the question and the defended answer, then the
    user request rendered with story, transcript, that request, the thinking
    advice of the phase and the word limit. *)
Definition render (self : Expert) (story transcript : string)
    (request_key phase_key : string) : result string :=
  request ← dict_item self.(_protocol).(new_argument) request_key;
  q ← attr "_question" self.(_question);
  d ← attr "_answer_defending" self.(_answer_defending);
  new_argument_request ← Template.substitute request (request_kwargs q d);
  thinking ← dict_item self.(_thinking_advice) phase_key;
  Template.substitute self.(_protocol).(user_request)
    (argument_kwargs story transcript new_argument_request thinking
       self.(_word_limit)).

(** Steps 5 and 6: the text becomes the current argument and the round
    counter goes up by one. *)
Definition advance (text : string) (self : Expert) : Expert :=
  set_current_round (self.(_current_round) + 1)
    (set_current_argument (Some text) self).

(** Two objects that agree on every attribute but [_answer_opposing]. *)
Definition same_but_answer_opposing (s1 s2 : Expert) : Prop :=
  set_answer_opposing None s1 = set_answer_opposing None s2.

(** The object that [IDebater.initial_position] leaves behind, whether it
    returns or raises on the way. *)
Definition resolved (question : string)
    (answer_defending answer_opposing : gmap string string)
    (opponent_name : string) (self : Expert) : Expert :=
  let a := py_or (dict_get answer_defending "A") (dict_get answer_opposing "A") in
  let b := py_or (dict_get answer_defending "B") (dict_get answer_opposing "B") in
  let dl := if py_eq a (dict_get answer_defending "A") then "A" else "B" in
  let ol := if py_eq a (dict_get answer_opposing "A") then "A" else "B" in
  let s1 := set_answer_defending_letter (Some dl)
              (set_answer_b (Some b)
                 (set_answer_a (Some a)
                    (set_opponent_name (Some opponent_name)
                       (set_question (Some question) self)))) in
  match answer_defending !! dl with
  | None => s1
  | Some text =>
      let s2 := set_answer_opposing_letter (Some ol)
                  (set_answer_defending (Some text) s1) in
      match answer_opposing !! ol with
      | None => s2
      | Some text' => set_answer_opposing (Some text') s2
      end
  end.

(** ** Sample objects

    A small protocol in the manner of the mocks of
    [backend/tests/test_experts.py]: every text names itself, so that a
    rendered prompt shows which texts went into it. *)

Definition the {A : Type} (r : result A) : is_ok r = true -> A :=
  match r with
  | inr a => fun _ => a
  | inl _ => fun H => match Bool.diff_false_true H with end
  end.

Definition probe_prompt : Protocol :=
  {| system := "system $name $word_limit";
     thinking_advice :=
       {[ "first_round_thinking" := "first";
          "second_round_thinking" := "second";
          "nth_round_thinking" := "nth" ]};
     new_argument :=
       {[ "opening_argument_request" := "opening($question,$answer_defending)";
          "nth_argument_request" := "next($question,$answer_defending)" ]};
     user_question :=
       "question($question,$answer_defending,$answer_opposing)";
     assistant_response :=
       "response($question,$answer_defending,$answer_opposing)";
     user_request :=
       "$story|$transcript|$new_argument_request|$thinking_advice|$word_limit" |}.

(** The same, except that the request for a further argument asks for a
    name that nobody supplies. *)
Definition broken_prompt : Protocol :=
  {| system := probe_prompt.(system);
     thinking_advice := probe_prompt.(thinking_advice);
     new_argument :=
       {[ "opening_argument_request" := "opening($question,$answer_defending)";
          "nth_argument_request" := "next($question,$answer_defending,$judge)" ]};
     user_question := probe_prompt.(user_question);
     assistant_response := probe_prompt.(assistant_response);
     user_request := probe_prompt.(user_request) |}.

Definition interactive_probe_prompt : Protocol :=
  {| system := probe_prompt.(system);
     thinking_advice := probe_prompt.(thinking_advice);
     new_argument := probe_prompt.(new_argument);
     user_question :=
       "question($question,A=$answer_a,B=$answer_b,$answer_defending_letter,$answer_opposing_letter,$opponent_name)";
     assistant_response := probe_prompt.(assistant_response);
     user_request := probe_prompt.(user_request) |}.

Definition alice : Expert :=
  the (Debater.__init__ "test_api_key" "openai" "test_model" "Alice" 100)
    eq_refl.

Definition carol : Expert :=
  the (Consultant.__init__ probe_prompt
         "test_api_key" "openai" "test_model" "Carol" 100) eq_refl.

Definition dave : Expert :=
  the (Consultant.__init__ broken_prompt
         "test_api_key" "anthropic" "test_model" "Dave" 100) eq_refl.

Definition irene : Expert :=
  the (IDebater.__init__ interactive_probe_prompt
         "test_api_key" "openai" "test_model" "Irene" 100) eq_refl.

(** The scenario of the specification: question [Q], defended answer [D],
    opposed answer [O], then three rounds on the same story. *)
Definition in_position (self : Expert) : Expert :=
  fst (Debater.initial_position "Q" "D" "O" self).

Definition consultant_in_position (self : Expert) : Expert :=
  fst (Consultant.initial_position "Q" "D" "O" self).

Definition interactive_in_position (self : Expert) : Expert :=
  fst (IDebater.initial_position "Q" {[ "A" := "D" ]} {[ "B" := "O" ]}
         "Bob" self).

Definition three_rounds : list (string * string) :=
  [("story", ""); ("story", ""); ("story", "")].

Definition texts_of (r : Expert * result (list string)) : list string :=
  match snd r with
  | inr texts => texts
  | inl _ => []
  end.

(** ** The prompts of a debater written out

    What the templates of [debater_prompt] come to once the values are in
    place. *)

Definition debater_request_text (round : Z) (question answer_defending : string)
  : string :=
  "Now it's your turn to construct your "
  +:+ (if round =? 0 then "opening" else "next")
  +:+ " argument for why the answer to the question " +:+ dq
  +:+ question +:+ dq +:+ " is " +:+ dq +:+ answer_defending +:+ dq +:+ ".".

Definition debater_advice_text (round : Z) : string :=
  if round =? 0 then debater_prompt.first_round_thinking
  else if round =? 1 then debater_prompt.second_round_thinking
  else debater_prompt.nth_round_thinking.

Definition debater_argument_text (round : Z)
    (story transcript question answer_defending : string) (word_limit : Z)
  : string :=
  "<story>
" +:+ story +:+ "
</story>
Here's the current transcript of the debate:
<transcript>
" +:+ transcript +:+ "
</transcript>

" +:+ debater_request_text round question answer_defending +:+ "
First, think about your argument in <thinking></thinking> tags by carrying out these steps:
" +:+ debater_advice_text round +:+ "
Finally, write your argument in <argument></argument> tags.
Do not exceed " +:+ py_str (VInt word_limit) +:+ " words.
Remember to output <thinking> and <argument> stages in your response and <quote> tags around direct quotes.".

Definition debater_response_text (question answer_defending answer_opposing : string)
  : string :=
  "I understand. I will argue that the answer to the question " +:+ dq
  +:+ question +:+ dq +:+ " is " +:+ dq +:+ answer_defending +:+ dq
  +:+ ". I will argue against the answer " +:+ dq +:+ answer_opposing
  +:+ dq +:+ ".".

(** A debater that holds the protocol of [debater_prompt] and a position. *)
Definition debater_ready (self : Expert) (question answer_defending : string)
  : Prop :=
  self.(_protocol) = debater_prompt.module
  /\ self.(_thinking_advice) = debater_prompt.thinking_advice
  /\ self.(_question) = Some question
  /\ self.(_answer_defending) = Some answer_defending.

(** Two objects that agree on every attribute but the round counter and
    the current argument. *)
Definition same_but_round (s1 s2 : Expert) : Prop :=
  set_current_round 0 (set_current_argument None s1)
  = set_current_round 0 (set_current_argument None s2).

(** The keyword arguments that [IDebater.initial_position] hands to the
    user-question template. *)
Definition interactive_kwargs (question : string) (answer_a answer_b : value)
    (answer_defending_letter answer_opposing_letter opponent_name : string)
  : gmap string value :=
  {[ "question" := VStr question;
     "answer_a" := answer_a;
     "answer_b" := answer_b;
     "answer_defending_letter" := VStr answer_defending_letter;
     "answer_opposing_letter" := VStr answer_opposing_letter;
     "opponent_name" := VStr opponent_name ]}.

(** The object that [IDebater.initial_position] leaves behind when nothing
    goes wrong, for given letters and texts. *)
Definition interactive_position (question opponent_name : string)
    (answer_a answer_b : value)
    (letter_defending text_defending letter_opposing text_opposing : string)
    (self : Expert) : Expert :=
  set_answer_opposing (Some text_opposing)
    (set_answer_opposing_letter (Some letter_opposing)
       (set_answer_defending (Some text_defending)
          (set_answer_defending_letter (Some letter_defending)
             (set_answer_b (Some answer_b)
                (set_answer_a (Some answer_a)
                   (set_opponent_name (Some opponent_name)
                      (set_question (Some question) self))))))).

(** Two objects that agree on all that [construct_argument] reads. *)
Definition same_for_rounds (s1 s2 : Expert) : Prop :=
  s1.(_protocol) = s2.(_protocol)
  /\ s1.(_thinking_advice) = s2.(_thinking_advice)
  /\ s1.(_word_limit) = s2.(_word_limit)
  /\ s1.(_current_round) = s2.(_current_round)
  /\ s1.(_question) = s2.(_question)
  /\ s1.(_answer_defending) = s2.(_answer_defending).

(** ** The task runner

    [tasks.py]: a command-line tool whose commands start processes.  What
    lies outside the program is the interpreter path [sys.executable] and
    [subprocess.run]; both are parameters.  [subprocess.run] is asked with
    the commands started so far and the command to start, and answers with
    what the call does.  [click] parses the options and calls the function
    of the command that [get_command] finds; [invoke] stands for that
    call. *)

Module tasks.

Definition DOCKER_IMAGE_NAME : string := "ai-debate-backend".
Definition DOCKERFILE_PATH : string := "backend/Dockerfile".
Definition TESTS_PATH : string := "backend/tests".

Record task : Type := {
  description : string;
  command : list string;
}.

(** What [subprocess.run(command, check=True)] does: it returns, or it
    raises [CalledProcessError] with the return code of the process,
    [FileNotFoundError], or another exception; each exception comes with
    the text that [str] gives for it. *)
Inductive run_outcome : Type :=
  | Completed
  | CalledProcessError (returncode : Z) (text : string)
  | FileNotFoundError (text : string)
  | OtherException (text : string).

(** What a function of the tool raises: [SystemExit] from [sys.exit], or
    an exception. *)
Inductive raised : Type :=
  | SystemExit (code : Z)
  | Exception (e : exn).

(** The commands started so far, oldest first, and the lines written by
    [click.echo] to standard output and to standard error. *)
Record console : Type := {
  ran : list (list string);
  out : list string;
  err : list string;
}.

Definition Sys (A : Type) : Type := console -> console * (raised + A).

#[global] Instance Sys_ret : MRet Sys := fun A a c => (c, inr a).
#[global] Instance Sys_bind : MBind Sys := fun A B k m c =>
  match m c with
  | (c', inl r) => (c', inl r)
  | (c', inr a) => k a c'
  end.

(** [click.echo(line)] and [click.echo(line, err=True)] *)
Definition echo (line : string) : Sys unit :=
  fun c => ({| ran := c.(ran); out := c.(out) ++ [line]; err := c.(err) |},
            inr tt).

Definition echo_err (line : string) : Sys unit :=
  fun c => ({| ran := c.(ran); out := c.(out); err := c.(err) ++ [line] |},
            inr tt).

(** [sys.exit(code)] *)
Definition exit {A : Type} (code : Z) : Sys A :=
  fun c => (c, inl (SystemExit code)).

(** The commands that the decorators [cli.command] register. *)
Inductive command_id : Type :=
  | RunApp
  | RunTests
  | BuildImage
  | RunImage
  | All.

#[global] Instance command_id_eq_dec : EqDecision command_id.
Proof. solve_decision. Defined.

Definition cli_commands : gmap string command_id :=
  {[ "run-app" := RunApp;
     "run-tests" := RunTests;
     "build-image" := BuildImage;
     "run-image" := RunImage;
     "all" := All ]}.

(** [AliasedGroup.aliases] *)
Definition aliases : gmap string string :=
  {[ "r" := "run-app";
     "t" := "run-tests";
     "b" := "build-image";
     "i" := "run-image";
     "a" := "all" ]}.

(** [AliasedGroup.get_command]; the method of the superclass looks the
    name up among the registered commands. *)
Definition get_command (cmd_name : string) : option command_id :=
  let cmd_name := match aliases !! cmd_name with
                  | Some name => name
                  | None => cmd_name
                  end in
  cli_commands !! cmd_name.

Section WithSystem.

Variable PYTHON_EXECUTABLE : string.
Variable subprocess_run : list (list string) -> list string -> run_outcome.

Definition TASKS : gmap string task :=
  {[ "run-app" :=
       {| description := "Run the Flask application.";
          command := [PYTHON_EXECUTABLE; "-m"; "backend.app.main"] |};
     "run-tests" :=
       {| description := "Run tests with pytest.";
          command := [PYTHON_EXECUTABLE; "-m"; "pytest"; TESTS_PATH] |};
     "build-image" :=
       {| description := "Build the Docker image.";
          command := ["docker"; "build"; "-t"; DOCKER_IMAGE_NAME; "-f";
                      DOCKERFILE_PATH; "."] |};
     "run-image" :=
       {| description := "Run the Docker container.";
          command := ["docker"; "run"; "-p"; "5000:5000";
                      DOCKER_IMAGE_NAME] |};
     "run-image-interactive" :=
       {| description := "Run the Docker container interactively.";
          command := ["docker"; "run"; "-it"; "-p"; "5000:5000";
                      DOCKER_IMAGE_NAME] |} ]}.

(** [TASKS[name]["command"]] *)
Definition task_command (name : string) : Sys (list string) :=
  fun c => (c, match TASKS !! name with
               | Some t => inr t.(command)
               | None => inl (Exception (KeyError name))
               end).

(** [subprocess.run(command, check=True)] *)
Definition run (command : list string) : Sys run_outcome :=
  fun c => ({| ran := c.(ran) ++ [command]; out := c.(out); err := c.(err) |},
            inr (subprocess_run c.(ran) command)).

Definition run_command (command : list string) (dry_run verbose : bool)
  : Sys unit :=
  (if verbose then echo ("Executing: " +:+ String.concat " " command)
   else mret tt);;
  if dry_run then echo ("[DRY-RUN] " +:+ String.concat " " command)
  else
    outcome ← run command;
    match outcome with
    | Completed => mret tt
    | CalledProcessError returncode text =>
        echo_err ("Error occurred while executing a command: " +:+ text);;
        exit returncode
    | FileNotFoundError text =>
        echo_err ("Command not found: " +:+ text);;
        exit 127
    | OtherException text =>
        echo_err ("An unexpected error occurred: " +:+ text);;
        exit 1
    end.

Definition run_app (dry_run verbose : bool) : Sys unit :=
  command ← task_command "run-app";
  run_command command dry_run verbose.

Definition run_tests (dry_run verbose : bool) : Sys unit :=
  command ← task_command "run-tests";
  run_command command dry_run verbose.

Definition build_image (dry_run verbose : bool) : Sys unit :=
  command ← task_command "build-image";
  run_command command dry_run verbose.

Definition run_image (dry_run verbose interactive : bool) : Sys unit :=
  let mode := if interactive then "run-image-interactive" else "run-image" in
  command ← task_command mode;
  run_command command dry_run verbose.

(** The loop of [all_tasks] *)
Fixpoint for_tasks (names : list string) (dry_run verbose : bool) : Sys unit :=
  match names with
  | [] => mret tt
  | name :: rest =>
      command ← task_command name;
      run_command command dry_run verbose;;
      for_tasks rest dry_run verbose
  end.

Definition all_tasks (dry_run verbose : bool) : Sys unit :=
  fun c =>
    match for_tasks ["run-tests"; "build-image"; "run-image"]
            dry_run verbose c with
    | (c', inl (SystemExit code)) =>
        (echo_err "Stopping execution due to a failure.";; exit code) c'
    | other => other
    end.

(** The call that [click] makes once it has found the command and parsed
    its flags; only [run-image] has the flag [interactive]. *)
Definition invoke (id : command_id) (dry_run verbose interactive : bool)
  : Sys unit :=
  match id with
  | RunApp => run_app dry_run verbose
  | RunTests => run_tests dry_run verbose
  | BuildImage => build_image dry_run verbose
  | RunImage => run_image dry_run verbose interactive
  | All => all_tasks dry_run verbose
  end.

(** The commands that [all_tasks] goes through, in its order. *)
Definition tests_command : list string :=
  [PYTHON_EXECUTABLE; "-m"; "pytest"; TESTS_PATH].

Definition build_command : list string :=
  ["docker"; "build"; "-t"; DOCKER_IMAGE_NAME; "-f"; DOCKERFILE_PATH; "."].

Definition image_command : list string :=
  ["docker"; "run"; "-p"; "5000:5000"; DOCKER_IMAGE_NAME].

(** The command that the function of a command other than [all] hands to
    [run_command]. *)
Definition single_command (id : command_id) (interactive : bool)
  : list string :=
  match id with
  | RunApp => [PYTHON_EXECUTABLE; "-m"; "backend.app.main"]
  | RunTests => tests_command
  | BuildImage => build_command
  | RunImage =>
      if interactive
      then ["docker"; "run"; "-it"; "-p"; "5000:5000"; DOCKER_IMAGE_NAME]
      else image_command
  | All => []
  end.

(** A command that one of the tasks of [TASKS] holds. *)
Definition is_task_command (command : list string) : Prop :=
  exists name t, TASKS !! name = Some t /\ t.(tasks.command) = command.

(** The exit status that [run_command] gives to an outcome of
    [subprocess.run], if it exits at all. *)
Definition exit_status (outcome : run_outcome) : option Z :=
  match outcome with
  | Completed => None
  | CalledProcessError returncode _ => Some returncode
  | FileNotFoundError _ => Some 127
  | OtherException _ => Some 1
  end.

End WithSystem.

(** Two consoles that agree on all but the lines on standard output. *)
Definition same_but_out (c1 c2 : console) : Prop :=
  c1.(ran) = c2.(ran) /\ c1.(err) = c2.(err).

(** Sample worlds: one in which every process succeeds, and one in which
    the build of the image fails with status 2. *)
Definition all_succeed (history : list (list string)) (command : list string)
  : run_outcome := Completed.

Definition build_fails (history : list (list string)) (command : list string)
  : run_outcome :=
  match command with
  | "docker" :: "build" :: _ =>
      CalledProcessError 2 "Command returned non-zero exit status 2."
  | _ => Completed
  end.

Definition empty_console : console := {| ran := []; out := []; err := [] |}.

End tasks.

(** ** The calls to the providers

    [backend/app/api_clients/base.py], the part of [APIClient] that talks
    to a provider.  An object of the class is an [Expert] together with its
    attribute [session], the client that [_initialize_client] made.  The
    libraries of the two providers are parameters: a call of theirs is
    asked with the requests sent so far and the request at hand, and
    answers with a response or with the text of the exception that it
    raises.  [logging.error] adds a line to a log. *)

Module base.

(** [openai.OpenAI(api_key=...)] and [anthropic.Anthropic(api_key=...)] *)
Inductive session : Type :=
  | OpenAI (api_key : string)
  | Anthropic (api_key : string).

(** [APIClient._initialize_client], with the session that it returns. *)
Definition _initialize_client (api_key provider : string)
  : result session :=
  if String.eqb provider "openai" then Ok (OpenAI api_key)
  else if String.eqb provider "anthropic" then Ok (Anthropic api_key)
  else Raise (ValueError ("Unsupported provider: " +:+ provider)).

(** What [create] is called with: the client, the model, the prompt, which
    goes as the content of a single message of the user, [max_tokens], and
    the keyword arguments that are passed on. *)
Record request : Type := {
  client : session;
  request_model : string;
  prompt : string;
  max_tokens : value;
  kwargs : gmap string value;
}.

(** What a call raises: the [ValueError] of a session of the wrong class,
    the [IndexError] of an empty list of choices, or what the library of
    the provider raises. *)
Inductive raised : Type :=
  | ValueError (text : string)
  | IndexError
  | ProviderError (text : string).

(** [str(e)] *)
Definition str_raised (e : raised) : string :=
  match e with
  | ValueError text => text
  | IndexError => "list index out of range"
  | ProviderError text => text
  end.

Record net : Type := {
  sent : list request;
  logged : list string;
}.

Definition Net (A : Type) : Type := net -> net * (raised + A).

#[global] Instance Net_ret : MRet Net := fun A a n => (n, inr a).
#[global] Instance Net_bind : MBind Net := fun A B k m n =>
  match m n with
  | (n', inl e) => (n', inl e)
  | (n', inr a) => k a n'
  end.

Definition raise {A : Type} (e : raised) : Net A := fun n => (n, inl e).

Section WithProviders.

(** The message of a choice of OpenAI and the response of Anthropic. *)
Variables Message Response : Type.

(** [session.chat.completions.create], which answers with the choices of
    the response, and [session.messages.create]. *)
Variable openai_create : list request -> request -> string + list Message.
Variable anthropic_create : list request -> request -> string + Response.

(** What [call_api] returns: the message, the response, or [None]. *)
Inductive returned : Type :=
  | ReturnedNone
  | ReturnedMessage (m : Message)
  | ReturnedResponse (r : Response).

Definition send {A : Type} (create : list request -> request -> string + A)
    (r : request) : Net A :=
  fun n => ({| sent := n.(sent) ++ [r]; logged := n.(logged) |},
            match create n.(sent) r with
            | inl text => inl (ProviderError text)
            | inr a => inr a
            end).

(** The parameter [max_tokens=150] of the two functions below takes its
    value from the keyword arguments when they name it; the others are
    passed on. *)
Definition max_tokens_of (kwargs : gmap string value) : value :=
  match kwargs !! "max_tokens" with
  | Some v => v
  | None => VInt 150
  end.

Definition _call_openai (s : session) (prompt model : string)
    (kwargs : gmap string value) : Net returned :=
  match s with
  | OpenAI _ =>
      choices ← send openai_create
                  {| client := s; request_model := model; prompt := prompt;
                     max_tokens := max_tokens_of kwargs;
                     kwargs := delete "max_tokens" kwargs |};
      match choices with
      | m :: _ => mret (ReturnedMessage m)
      | [] => raise IndexError
      end
  | Anthropic _ =>
      raise (ValueError "OpenAI API client not initialized correctly.")
  end.

Definition _call_anthropic (s : session) (prompt model : string)
    (kwargs : gmap string value) : Net returned :=
  match s with
  | Anthropic _ =>
      response ← send anthropic_create
                   {| client := s; request_model := model; prompt := prompt;
                      max_tokens := max_tokens_of kwargs;
                      kwargs := delete "max_tokens" kwargs |};
      mret (ReturnedResponse response)
  | OpenAI _ =>
      raise (ValueError "Anthropic API client not initialized correctly.")
  end.

(** [logging.error(...)] and [raise] of the handler of [call_api] *)
Definition log_and_raise {A : Type} (m : Net A) : Net A :=
  fun n =>
    match m n with
    | (n', inl e) =>
        ({| sent := n'.(sent);
            logged := n'.(logged)
                      ++ ["Error during API call: " +:+ str_raised e] |},
         inl e)
    | other => other
    end.

Definition call_api (self : Expert) (s : session) (prompt : string) :
    string -> gmap string value -> Net returned :=
  let default := self.(model) in
  fun model kwargs =>
  let model := if String.eqb model "" then default else model in
  log_and_raise
    (if String.eqb self.(provider) "openai"
     then _call_openai s prompt model kwargs
     else if String.eqb self.(provider) "anthropic"
     then _call_anthropic s prompt model kwargs
     else mret ReturnedNone).

End WithProviders.

End base.

(** ** The consultancy session

    [backend/app/run_expert/consultant.py].  A session works on a
    consultant, with the session of its provider, and on the network.  The
    reading of the data set is left out of [main]: the question, the two
    answers and the story are its parameters.  Of a message or a response
    the session reads the attribute [content] and formats it into a string;
    [message_content] and [response_content] stand for the two steps
    together. *)

Module run_expert.

Definition add_to_transcript (transcript response : string) : string :=
  transcript +:+ response +:+ "

".

(** What a function of the session raises: an exception of the consultant,
    an exception of the call, or the [AttributeError] of reading [content]
    from [None]. *)
Inductive failure : Type :=
  | ExpertRaised (e : exn)
  | CallRaised (e : base.raised)
  | NoContent.

Record world : Type := {
  consultant : Expert;
  network : base.net;
}.

Definition Run (A : Type) : Type := world -> world * (failure + A).

#[global] Instance Run_ret : MRet Run := fun A a w => (w, inr a).
#[global] Instance Run_bind : MBind Run := fun A B k m w =>
  match m w with
  | (w', inl e) => (w', inl e)
  | (w', inr a) => k a w'
  end.

(** A method of the consultant. *)
Definition method {A : Type} (m : M A) : Run A :=
  fun w =>
    match m w.(consultant) with
    | (self, inl e) =>
        ({| consultant := self; network := w.(network) |},
         inl (ExpertRaised e))
    | (self, inr a) =>
        ({| consultant := self; network := w.(network) |}, inr a)
    end.

(** A call of the consultant to its provider. *)
Definition call {A : Type} (m : Expert -> base.Net A) : Run A :=
  fun w =>
    match m w.(consultant) w.(network) with
    | (n, inl e) =>
        ({| consultant := w.(consultant); network := n |}, inl (CallRaised e))
    | (n, inr a) =>
        ({| consultant := w.(consultant); network := n |}, inr a)
    end.

(** The line that a reply makes in the transcript, and the transcript
    that a list of replies makes. *)
Definition entry (content : string) : string :=
  add_to_transcript "" ("Consultant: " +:+ content).

Fixpoint transcript_of (contents : list string) : string :=
  match contents with
  | [] => ""
  | content :: rest => entry content +:+ transcript_of rest
  end.

Section WithProviders.

Variables Message Response : Type.
Variable openai_create :
  list base.request -> base.request -> string + list Message.
Variable anthropic_create :
  list base.request -> base.request -> string + Response.
Variable message_content : Message -> string.
Variable response_content : Response -> string.

(** The attribute [session] of the consultant. *)
Variable session : base.session.

Definition call_api (prompt : string) (kwargs : gmap string value)
  : Run (base.returned Message Response) :=
  call (fun self =>
          base.call_api Message Response openai_create anthropic_create
            self session prompt "" kwargs).

Definition set_initial_position
    (question answer_defending answer_opposing : string)
  : Run (base.returned Message Response) :=
  ip ← method (Consultant.initial_position question answer_defending
                 answer_opposing);
  call_api ip {[ "max_tokens" := VInt 1000 ]}.

Definition construct_argument (story transcript : string)
  : Run (base.returned Message Response) :=
  argument ← method (Consultant.construct_argument story transcript);
  call_api argument {[ "max_tokens" := VInt 1000 ]}.

(** [response.content] inside the formatted string *)
Definition content (response : base.returned Message Response) : Run string :=
  match response with
  | base.ReturnedNone _ _ => fun w => (w, inl NoContent)
  | base.ReturnedMessage _ _ m => mret (message_content m)
  | base.ReturnedResponse _ _ r => mret (response_content r)
  end.

(** The loop of [main] over the rounds that are left. *)
Fixpoint loop (rounds_left : nat) (story transcript : string) : Run string :=
  match rounds_left with
  | O => mret transcript
  | S rounds_left =>
      response ← construct_argument story transcript;
      text ← content response;
      let response := "Consultant: " +:+ text in
      loop rounds_left story (add_to_transcript transcript response)
  end.

(** [main], from the empty transcript to the transcript that it prints. *)
Definition main (question answer_defending answer_opposing story : string)
  : Run string :=
  let transcript := "" in
  response ← set_initial_position question answer_defending answer_opposing;
  text ← content response;
  let response := "Consultant: " +:+ text in
  let transcript := add_to_transcript transcript response in
  loop 3 story transcript.

End WithProviders.

(** A sample provider that answers every request with one choice, the
    number of the request, and a sample world around the consultant
    [carol]. *)
Definition counting_provider (history : list base.request)
    (r : base.request) : string + list string :=
  inr [py_str (VInt (Z.of_nat (length history)))].

Definition failing_provider (history : list base.request)
    (r : base.request) : string + list string :=
  inl "Connection error.".

Definition no_anthropic (history : list base.request) (r : base.request)
  : string + string := inl "not used".

Definition carol_world : world :=
  {| consultant := carol;
     network := {| base.sent := []; base.logged := [] |} |}.

End run_expert.

(** ** Basic facts *)

Example substitute_named :
  Template.substitute "a $x_1, ${y}z $$ $w"
    {[ "x_1" := VStr "X"; "y" := VInt 7; "w" := VNone ]}
  = Ok "a X, 7z $ None".
Proof. vm_compute. reflexivity. Qed.

Example substitute_missing :
  Template.substitute "a $x and $y" {[ "y" := VStr "Y" ]} = Raise (KeyError "x").
Proof. vm_compute. reflexivity. Qed.

Example substitute_invalid :
  Template.substitute "cost: $5 for $y" ∅ = Raise Template.invalid.
Proof. vm_compute. reflexivity. Qed.

Example substitute_unclosed :
  Template.substitute "${name" {[ "name" := VStr "n" ]} = Raise Template.invalid.
Proof. vm_compute. reflexivity. Qed.

(** The scenario of the specification on the small protocols: the
    phases of a debater go first, second, nth and those of a consultant
    first, nth, nth, while the counter goes from 0 to 3. *)
Example three_rounds_interactive_debater :
  rounds (construct_argument_of interactive_debater) three_rounds
    (interactive_in_position irene)
  = (advance "story||next(Q,D)|nth|100"
       (advance "story||next(Q,D)|second|100"
          (advance "story||opening(Q,D)|first|100"
             (interactive_in_position irene))),
     Ok ["story||opening(Q,D)|first|100";
         "story||next(Q,D)|second|100";
         "story||next(Q,D)|nth|100"]).
Proof. vm_compute. reflexivity. Qed.

Example three_rounds_consultant :
  snd (rounds (construct_argument_of consultant) three_rounds
         (consultant_in_position carol))
  = Ok ["story||opening(Q,D)|first|100";
        "story||next(Q,D)|nth|100";
        "story||next(Q,D)|nth|100"].
Proof. vm_compute. reflexivity. Qed.

Example three_rounds_debater_counter :
  (fst (rounds (construct_argument_of debater) three_rounds
          (in_position alice))).(_current_round) = 3.
Proof. vm_compute. reflexivity. Qed.

(** A map that gives both roles the letter A makes the call raise half-way,
    with the attributes assigned so far left in place. *)
Example same_letter_for_both :
  let outcome := IDebater.initial_position "Q" {[ "A" := "X" ]}
                   {[ "A" := "Y" ]} "Bob" irene in
  snd outcome = Raise (KeyError "B")
  /\ (fst outcome).(_answer_a) = Some (VStr "X")
  /\ (fst outcome).(_answer_b) = Some VNone
  /\ (fst outcome).(_answer_defending_letter) = Some "A"
  /\ (fst outcome).(_answer_opposing_letter) = Some "B"
  /\ (fst outcome).(_answer_opposing) = None.
Proof. vm_compute. repeat split. Qed.


Ltac step := cbn -[Template.substitute argument_kwargs request_kwargs].

Lemma construct_argument_unfold (v : variant) (story transcript : string)
    (self : Expert) :
  construct_argument_of v story transcript self =
  match render self story transcript
          (new_argument_key self.(_current_round))
          (thinking_key v self.(_current_round)) with
  | inl e => (self, inl e)
  | inr text => (advance text self, inr text)
  end.
Proof.
  unfold render, new_argument_key, thinking_key.
  destruct v; step;
    unfold IDebater.construct_argument, Consultant.construct_argument,
      Debater.construct_argument, mbind, M_bind, result_bind, read, eval,
      getattr, assign, attr, dict_item;
    step.
  all: destruct (_current_round self =? 0) eqn:H0; step.
  all: repeat match goal with
    | |- context [match ?x !! ?k with _ => _ end] => destruct (x !! k); step
    | |- context [match _question ?s with _ => _ end] =>
        destruct (_question s); step
    | |- context [match _answer_defending ?s with _ => _ end] =>
        destruct (_answer_defending s); step
    | |- context [match Template.substitute ?t ?m with _ => _ end] =>
        destruct (Template.substitute t m); step
    end.
  all: reflexivity.
Qed.

Lemma render_advance (text : string) (self : Expert)
    (story transcript request_key phase_key : string) :
  render (advance text self) story transcript request_key phase_key =
  render self story transcript request_key phase_key.
Proof. reflexivity. Qed.

Lemma advance_round (text : string) (self : Expert) :
  (advance text self).(_current_round) = self.(_current_round) + 1.
Proof. reflexivity. Qed.

(** A session that got through all its rounds: the counter has gone up by
    their number, and round [k] of the session was rendered with the keys
    of the counter as it stood before that round. *)
Lemma rounds_inv (v : variant) (inputs : list (string * string)) :
  forall (self self' : Expert) (texts : list string),
    rounds (construct_argument_of v) inputs self = (self', Ok texts) ->
    self'.(_current_round) = self.(_current_round) + Z.of_nat (length inputs)
    /\ length texts = length inputs
    /\ forall (k : nat) (story transcript : string),
         inputs !! k = Some (story, transcript) ->
         exists text,
           texts !! k = Some text /\
           render self story transcript
             (new_argument_key (self.(_current_round) + Z.of_nat k))
             (thinking_key v (self.(_current_round) + Z.of_nat k))
           = Ok text.
Proof.
  induction inputs as [|[story0 transcript0] rest IH];
    intros self self' texts Hrun.
  - cbn in Hrun. inversion Hrun; subst. cbn.
    repeat split; [lia | intros k ? ? Hk; discriminate Hk].
  - cbn [rounds] in Hrun. unfold mbind at 1, M_bind at 1 in Hrun.
    rewrite construct_argument_unfold in Hrun.
    destruct (render self story0 transcript0 _ _) as [e|text] eqn:Hrender;
      [inversion Hrun|].
    unfold mbind at 1, M_bind at 1 in Hrun.
    destruct (rounds (construct_argument_of v) rest (advance text self))
      as [self1 [e|texts1]] eqn:Hrest; [inversion Hrun|].
    cbn in Hrun. inversion Hrun; subst self' texts; clear Hrun.
    destruct (IH _ _ _ Hrest) as (Hround & Hlen & Hkeys).
    rewrite advance_round in Hround.
    repeat split.
    + rewrite Hround. cbn [length]. lia.
    + cbn [length]. congruence.
    + intros [|k] story transcript Hk.
      * cbn in Hk. inversion Hk; subst. exists text. split; [reflexivity|].
        rewrite Z.add_0_r. exact Hrender.
      * cbn in Hk. destruct (Hkeys k story transcript Hk) as (t & Ht & Hr).
        exists t. split; [exact Ht|].
        rewrite render_advance, advance_round in Hr.
        replace (_current_round self + Z.of_nat (S k))
          with (_current_round self + 1 + Z.of_nat k) by lia.
        exact Hr.
Qed.

(** The outcome of a call that raises leaves the object as it was. *)
Lemma construct_argument_raises (v : variant) (story transcript : string)
    (self : Expert) (e : exn) :
  snd (construct_argument_of v story transcript self) = inl e ->
  construct_argument_of v story transcript self = (self, inl e).
Proof.
  rewrite construct_argument_unfold.
  destruct (render self story transcript _ _); cbn; congruence.
Qed.

Lemma construct_argument_returns (v : variant) (story transcript : string)
    (self self' : Expert) (text : string) :
  construct_argument_of v story transcript self = (self', Ok text) ->
  self' = advance text self
  /\ render self story transcript
       (new_argument_key self.(_current_round))
       (thinking_key v self.(_current_round)) = Ok text.
Proof.
  rewrite construct_argument_unfold.
  destruct (render self story transcript _ _) as [e|text'] eqn:Hr;
    intros H; inversion H; subst; auto.
Qed.

(** ** Round advancement *)

(** C1. Round monotonicity.  A session of N rounds on an expert of any
    variant whose counter stands at 0, all of which return: the counter
    then equals N, and the text of round k (counted from 0, so the call
    number k+1) is the rendering with the request key and the phase key of
    the value k that the counter had before that call.  Each returning call
    leaves the object with its rendered text stored and the counter raised
    by exactly one. *)
Theorem round_monotonicity (v : variant) (inputs : list (string * string))
    (self self' : Expert) (texts : list string) :
  self.(_current_round) = 0 ->
  rounds (construct_argument_of v) inputs self = (self', Ok texts) ->
  self'.(_current_round) = Z.of_nat (length inputs)
  /\ (forall (k : nat) (story transcript : string),
        inputs !! k = Some (story, transcript) ->
        exists text,
          texts !! k = Some text /\
          render self story transcript
            (new_argument_key (Z.of_nat k)) (thinking_key v (Z.of_nat k))
          = Ok text)
  /\ (forall (s s1 : Expert) (story transcript text : string),
        construct_argument_of v story transcript s = (s1, Ok text) ->
        s1.(_current_round) = s.(_current_round) + 1
        /\ s1.(_current_argument) = Some text
        /\ render s story transcript
             (new_argument_key s.(_current_round))
             (thinking_key v s.(_current_round)) = Ok text).
Proof.
  intros Hzero Hrun.
  destruct (rounds_inv v inputs self self' texts Hrun) as (Hround & _ & Hkeys).
  rewrite Hzero in Hround, Hkeys. cbn in Hround.
  split; [exact Hround|]. split.
  - intros k story transcript Hk.
    destruct (Hkeys k story transcript Hk) as (text & Ht & Hr).
    exists text. split; [exact Ht|]. exact Hr.
  - intros s s1 story transcript text Hcall.
    apply construct_argument_returns in Hcall as [-> Hr].
    repeat split. exact Hr.
Qed.

Lemma round_monotonicity_witness :
  let run := rounds (construct_argument_of debater) three_rounds
               (in_position alice) in
  (fst run).(_current_round) = 3
  /\ exists text,
       texts_of run !! 1%nat = Some text /\
       render (in_position alice) "story" ""
         "nth_argument_request" "second_round_thinking" = Ok text.
Proof.
  intros run.
  assert (Hrun : run = (fst run, Ok (texts_of run)))
    by (vm_compute; reflexivity).
  destruct (round_monotonicity debater three_rounds (in_position alice)
              (fst run) (texts_of run) eq_refl Hrun) as (Hround & Hkeys & _).
  split; [exact Hround|].
  exact (Hkeys 1%nat "story" "" eq_refl).
Defined.

(** C2. Phase selection.  The thinking advice of a call is the one filed
    under the phase of the counter as the call finds it.  Debater and
    interactive debater: round 0 takes [first_round_thinking], round 1
    [second_round_thinking], every round from 2 on [nth_round_thinking].
    Consultant: round 0 takes [first_round_thinking] and every round from 1
    on [nth_round_thinking]. *)
Theorem thinking_phase_selection (self : Expert) (story transcript : string) :
  let called v := snd (construct_argument_of v story transcript self) in
  let rendered := render self story transcript in
  (forall v, v = debater \/ v = interactive_debater ->
     (self.(_current_round) = 0 ->
        called v = rendered "opening_argument_request" "first_round_thinking")
     /\ (self.(_current_round) = 1 ->
        called v = rendered "nth_argument_request" "second_round_thinking")
     /\ (2 <= self.(_current_round) ->
        called v = rendered "nth_argument_request" "nth_round_thinking"))
  /\ (self.(_current_round) = 0 ->
        called consultant =
        rendered "opening_argument_request" "first_round_thinking")
  /\ (1 <= self.(_current_round) ->
        called consultant =
        rendered "nth_argument_request" "nth_round_thinking").
Proof.
  cbn zeta.
  assert (Hcall : forall v,
    snd (construct_argument_of v story transcript self) =
    render self story transcript (new_argument_key self.(_current_round))
      (thinking_key v self.(_current_round))).
  { intros v. rewrite construct_argument_unfold.
    destruct (render self story transcript _ _); reflexivity. }
  split; [intros v Hv; split; [|split] | split]; intros Hr; rewrite Hcall;
    unfold new_argument_key, thinking_key.
  - destruct Hv as [-> | ->]; rewrite Hr; reflexivity.
  - destruct Hv as [-> | ->]; rewrite Hr; reflexivity.
  - destruct (Z.eqb_spec (_current_round self) 0); [lia|].
    destruct (Z.eqb_spec (_current_round self) 1); [lia|].
    destruct Hv as [-> | ->]; reflexivity.
  - rewrite Hr. reflexivity.
  - destruct (Z.eqb_spec (_current_round self) 0); [lia|]. reflexivity.
Qed.

Lemma thinking_phase_selection_witness :
  let second := fst (Debater.construct_argument "story" "" (in_position alice)) in
  snd (construct_argument_of debater "story" "" second) =
  render second "story" "" "nth_argument_request" "second_round_thinking"
  /\ snd (construct_argument_of consultant "story" ""
            (consultant_in_position carol))
     = Ok "story||opening(Q,D)|first|100".
Proof.
  intros second. split.
  - destruct (thinking_phase_selection second "story" "") as (Hdeb & _ & _).
    destruct (Hdeb debater (or_introl eq_refl)) as (_ & Hsecond & _).
    exact (Hsecond eq_refl).
  - destruct (thinking_phase_selection (consultant_in_position carol)
                "story" "") as (_ & Hfirst & _).
    rewrite (Hfirst eq_refl). vm_compute. reflexivity.
Defined.

(** C8. Request key.  For every variant alike, the new-argument request of
    a call is the template filed under [opening_argument_request] when the
    counter that the call finds is 0 and under [nth_argument_request] when
    it is 1 or more. *)
Theorem new_argument_request_selection (v : variant) (self : Expert)
    (story transcript : string) :
  (self.(_current_round) = 0 ->
     snd (construct_argument_of v story transcript self) =
     render self story transcript "opening_argument_request"
       (thinking_key v self.(_current_round)))
  /\ (1 <= self.(_current_round) ->
     snd (construct_argument_of v story transcript self) =
     render self story transcript "nth_argument_request"
       (thinking_key v self.(_current_round))).
Proof.
  rewrite construct_argument_unfold. unfold new_argument_key.
  split; intros Hr.
  - rewrite Hr. cbn [Z.eqb].
    destruct (render self story transcript _ _); reflexivity.
  - destruct (Z.eqb_spec (_current_round self) 0); [lia|].
    destruct (render self story transcript _ _); reflexivity.
Qed.

Lemma new_argument_request_selection_witness :
  snd (construct_argument_of interactive_debater "story" ""
         (interactive_in_position irene)) = Ok "story||opening(Q,D)|first|100"
  /\ snd (construct_argument_of consultant "story" ""
            (fst (Consultant.construct_argument "story" ""
                    (consultant_in_position carol))))
     = Ok "story||next(Q,D)|nth|100".
Proof.
  split.
  - destruct (new_argument_request_selection interactive_debater
                (interactive_in_position irene) "story" "") as [Hopening _].
    rewrite (Hopening eq_refl). vm_compute. reflexivity.
  - destruct (new_argument_request_selection consultant
                (fst (Consultant.construct_argument "story" ""
                        (consultant_in_position carol))) "story" "")
      as [_ Hnth].
    rewrite Hnth; [vm_compute; reflexivity |].
    apply Z.leb_le. vm_compute. reflexivity.
Defined.

(** C3. Failure atomicity.  A call of [construct_argument] that raises,
    whatever the reason (a template that does not render, a missing
    dictionary key, a missing attribute), hands the exception to its caller
    and leaves the object exactly as it was: same counter, same current
    argument.  A call that returns leaves the object advanced by one round
    with the returned text stored. *)
Theorem construct_argument_failure_atomic (v : variant) (self : Expert)
    (story transcript : string) :
  let outcome := construct_argument_of v story transcript self in
  (forall e, snd outcome = inl e ->
     fst outcome = self
     /\ (fst outcome).(_current_round) = self.(_current_round)
     /\ (fst outcome).(_current_argument) = self.(_current_argument))
  /\ (forall text, snd outcome = inr text ->
     fst outcome = advance text self).
Proof.
  cbn zeta. rewrite construct_argument_unfold.
  destruct (render self story transcript _ _) as [e|text]; cbn;
    split; intros x Hx; inversion Hx; subst; auto.
Qed.

Lemma construct_argument_failure_atomic_witness :
  let self := fst (Consultant.construct_argument "story" ""
                     (consultant_in_position dave)) in
  let outcome := construct_argument_of consultant "story" "more" self in
  snd outcome = Raise (KeyError "judge")
  /\ fst outcome = self
  /\ (fst outcome).(_current_round) = 1
  /\ (fst outcome).(_current_argument) = Some "story||opening(Q,D)|first|100".
Proof.
  intros self outcome.
  assert (Hraise : snd outcome = Raise (KeyError "judge"))
    by (vm_compute; reflexivity).
  destruct (construct_argument_failure_atomic consultant self "story" "more")
    as [Hfail _].
  destruct (Hfail _ Hraise) as (Hsame & Hround & Hargument).
  split; [exact Hraise|]. split; [exact Hsame|]. split.
  - fold outcome in Hround. rewrite Hround. vm_compute. reflexivity.
  - fold outcome in Hargument. rewrite Hargument. vm_compute. reflexivity.
Defined.

(** ** Rendering succeeds or fails by the names supplied, not their values *)

Lemma is_ok_bind_ok {A B : Type} (r : result A) (f : A -> B) :
  is_ok (a ← r; Ok (f a)) = is_ok r.
Proof. destruct r; reflexivity. Qed.

Section SameNames.

Variables mapping mapping' : gmap string value.
Hypothesis same_names :
  forall k, is_Some (mapping !! k) <-> is_Some (mapping' !! k).

Lemma convert_same_names (id : string) :
  (exists v v', Template.convert mapping id = Ok v
                /\ Template.convert mapping' id = Ok v')
  \/ (Template.convert mapping id = Raise (KeyError id)
      /\ Template.convert mapping' id = Raise (KeyError id)).
Proof.
  unfold Template.convert, dict_item.
  destruct (same_names id) as [H1 H2].
  destruct (mapping !! id) as [v|] eqn:E, (mapping' !! id) as [v'|] eqn:E'.
  - left. eauto.
  - destruct H1 as [? ?]; [eauto | discriminate].
  - destruct H2 as [? ?]; [eauto | discriminate].
  - right. split; reflexivity.
Qed.

Lemma scan_same_names (s : string) :
  forall md, is_ok (Template.scan mapping md s)
             = is_ok (Template.scan mapping' md s).
Proof.
  induction s as [|c rest IH]; intros md.
  - destruct md as [| |id| |id]; cbn; try reflexivity.
    destruct (convert_same_names id) as [(v & v' & -> & ->)|[-> ->]];
      reflexivity.
  - destruct md as [| |id| |id]; cbn [Template.scan].
    + destruct (Ascii.eqb c "$"); [apply IH|].
      rewrite !is_ok_bind_ok. apply IH.
    + destruct (Ascii.eqb c "$"); [rewrite !is_ok_bind_ok; apply IH|].
      destruct (Template.id_start c); [apply IH|].
      destruct (Ascii.eqb c "{"); [apply IH | reflexivity].
    + destruct (Template.id_char c); [apply IH|].
      destruct (convert_same_names id) as [(v & v' & -> & ->)|[-> ->]];
        [|reflexivity].
      cbn. destruct (Ascii.eqb c "$"); rewrite !is_ok_bind_ok; apply IH.
    + destruct (Template.id_start c); [apply IH | reflexivity].
    + destruct (Template.id_char c); [apply IH|].
      destruct (Ascii.eqb c "}"); [|reflexivity].
      destruct (convert_same_names id) as [(v & v' & -> & ->)|[-> ->]];
        [|reflexivity].
      cbn. rewrite !is_ok_bind_ok. apply IH.
Qed.

Lemma substitute_same_names (template : Template.t) :
  is_ok (Template.substitute template mapping)
  = is_ok (Template.substitute template mapping').
Proof. apply scan_same_names. Qed.

End SameNames.

Lemma position_kwargs_names (q d o q' d' o' : string) (k : string) :
  is_Some (position_kwargs q d o !! k) <-> is_Some (position_kwargs q' d' o' !! k).
Proof.
  unfold position_kwargs.
  rewrite !lookup_insert, !lookup_singleton.
  repeat case_decide; split; eauto.
Qed.

(** ** Initial position *)

Lemma initial_position_unfold (ip : string -> string -> string -> M string)
    (q d o : string) (self : Expert) :
  ip = Consultant.initial_position \/ ip = Debater.initial_position ->
  ip q d o self =
  (set_answer_opposing (Some o)
     (set_answer_defending (Some d) (set_question (Some q) self)),
   Template.substitute self.(_protocol).(user_question)
     (position_kwargs q d o)).
Proof. intros [-> | ->]; reflexivity. Qed.

Lemma Debater_init_inv (api_key provider model name : string) (word_limit : Z)
    (self : Expert) :
  Debater.__init__ api_key provider model name word_limit = Ok self ->
  self.(_protocol) = debater_prompt.module
  /\ self.(_thinking_advice) = debater_prompt.thinking_advice
  /\ self.(_word_limit) = word_limit
  /\ self.(_current_round) = 0
  /\ self.(_question) = None
  /\ self.(_answer_defending) = None
  /\ self.(_answer_opposing) = None
  /\ self.(_current_argument) = None.
Proof.
  unfold Debater.__init__.
  destruct (APIClient._initialize_client provider); [discriminate|].
  cbn [mbind result_bind].
  destruct (Template.substitute _ _); [discriminate|].
  cbn [mbind result_bind]. intros H. inversion H; subst. cbn.
  repeat split.
Qed.

Lemma Consultant_init_inv (prompt : Protocol)
    (api_key provider model name : string) (word_limit : Z) (self : Expert) :
  Consultant.__init__ prompt api_key provider model name word_limit = Ok self ->
  self.(_protocol) = prompt
  /\ self.(_thinking_advice) = prompt.(thinking_advice)
  /\ self.(_word_limit) = word_limit
  /\ self.(_current_round) = 0
  /\ self.(_question) = None
  /\ self.(_answer_defending) = None
  /\ self.(_answer_opposing) = None
  /\ self.(_current_argument) = None.
Proof.
  unfold Consultant.__init__.
  destruct (APIClient._initialize_client provider); [discriminate|].
  cbn [mbind result_bind].
  destruct (Template.substitute _ _); [discriminate|].
  cbn [mbind result_bind]. intros H. inversion H; subst. cbn.
  repeat split.
Qed.

(** C9. [initial_position] of a consultant or a debater, for any three
    strings: the object afterwards holds exactly these strings as question,
    defended answer and opposed answer and is otherwise as before, the
    round counter included; the outcome of the call is the user-question
    template rendered with the three strings.  A second call behaves as if
    the first had not been made: it overwrites the three attributes and
    raises only where the first call raised, that is only where the template
    itself does not render.  With the templates of [debater_prompt], which
    a debater gets from [__init__], every call returns. *)
Theorem initial_position_stores
    (ip : string -> string -> string -> M string) (self : Expert)
    (q d o q' d' o' : string) :
  ip = Consultant.initial_position \/ ip = Debater.initial_position ->
  let first := ip q d o self in
  let second := ip q' d' o' (fst first) in
  ((fst first).(_question) = Some q
   /\ (fst first).(_answer_defending) = Some d
   /\ (fst first).(_answer_opposing) = Some o)
  /\ fst first = set_answer_opposing (Some o)
                   (set_answer_defending (Some d) (set_question (Some q) self))
  /\ snd first = Template.substitute self.(_protocol).(user_question)
                   (position_kwargs q d o)
  /\ (fst first).(_current_round) = self.(_current_round)
  /\ fst second = fst (ip q' d' o' self)
  /\ snd second = snd (ip q' d' o' self)
  /\ is_ok (snd second) = is_ok (snd first)
  /\ (self.(_protocol) = debater_prompt.module ->
      is_ok (snd first) = true /\ is_ok (snd second) = true).
Proof.
  intros Hip. cbn zeta.
  rewrite !(initial_position_unfold ip) by exact Hip. cbn [fst snd].
  split; [repeat split|]. split; [reflexivity|]. split; [reflexivity|].
  split; [reflexivity|]. split; [reflexivity|]. split; [reflexivity|].
  split.
  - cbn. apply substitute_same_names. intros k. apply position_kwargs_names.
  - cbn. intros ->. split; vm_compute; reflexivity.
Qed.

Lemma initial_position_stores_witness :
  let first := Debater.initial_position "Q" "D" "O" alice in
  let second := Debater.initial_position "Q2" "D2" "O2" (fst first) in
  snd first = Ok
    ("Here is the question and the two answers:
<question>Q</question>
<your_answer>D</your_answer>
<opponent_answer>O</opponent_answer>
Please restate your position and the position you are arguing against to confirm you understand.")
  /\ (fst first).(_current_round) = 0
  /\ (fst second).(_question) = Some "Q2"
  /\ (fst second).(_answer_defending) = Some "D2"
  /\ (fst second).(_answer_opposing) = Some "O2"
  /\ is_ok (snd second) = true.
Proof.
  intros first second.
  destruct (initial_position_stores Debater.initial_position alice
              "Q" "D" "O" "Q2" "D2" "O2" (or_intror eq_refl))
    as (_ & _ & Htext & Hround & Hstate & _ & _ & Hok).
  fold first in Htext, Hround, Hstate, Hok.
  fold second in Hstate, Hok.
  split; [rewrite Htext; vm_compute; reflexivity|].
  split; [rewrite Hround; vm_compute; reflexivity|].
  rewrite Hstate.
  split; [vm_compute; reflexivity|].
  split; [vm_compute; reflexivity|].
  split; [vm_compute; reflexivity|].
  apply Hok. vm_compute. reflexivity.
Defined.

(** ** The opposed answer stays out of the round prompts *)

Lemma same_but_answer_opposing_fields (s1 s2 : Expert) :
  same_but_answer_opposing s1 s2 ->
  s1.(_protocol) = s2.(_protocol)
  /\ s1.(_thinking_advice) = s2.(_thinking_advice)
  /\ s1.(_word_limit) = s2.(_word_limit)
  /\ s1.(_current_round) = s2.(_current_round)
  /\ s1.(_question) = s2.(_question)
  /\ s1.(_answer_defending) = s2.(_answer_defending).
Proof.
  unfold same_but_answer_opposing. intros H.
  split; [exact (f_equal _protocol H)|].
  split; [exact (f_equal _thinking_advice H)|].
  split; [exact (f_equal _word_limit H)|].
  split; [exact (f_equal _current_round H)|].
  split; [exact (f_equal _question H) | exact (f_equal _answer_defending H)].
Qed.

(** C10. The prompt of a round does not depend on the opposed answer.  Two
    objects that agree on everything but [_answer_opposing] (set or not)
    get from [construct_argument], on the same story and transcript, the
    same outcome, text or exception, and are left agreeing on everything
    but [_answer_opposing], which each keeps as it had it.  This holds for
    the consultant and the debater, and for the interactive debater, which
    inherits the method. *)
Theorem construct_argument_ignores_answer_opposing (v : variant)
    (s1 s2 : Expert) (story transcript : string) :
  same_but_answer_opposing s1 s2 ->
  let outcome1 := construct_argument_of v story transcript s1 in
  let outcome2 := construct_argument_of v story transcript s2 in
  snd outcome1 = snd outcome2
  /\ same_but_answer_opposing (fst outcome1) (fst outcome2)
  /\ (fst outcome1).(_answer_opposing) = s1.(_answer_opposing)
  /\ (fst outcome2).(_answer_opposing) = s2.(_answer_opposing).
Proof.
  intros Hsame. cbn zeta.
  rewrite !construct_argument_unfold.
  destruct (same_but_answer_opposing_fields s1 s2 Hsame)
    as (Hp & Ha & Hw & Hr & Hq & Hd).
  assert (Hrender : forall rk pk,
    render s1 story transcript rk pk = render s2 story transcript rk pk).
  { intros rk pk. unfold render. rewrite Hp, Ha, Hw, Hq, Hd. reflexivity. }
  rewrite Hrender, Hr.
  destruct (render s2 story transcript _ _) as [e|text]; cbn [fst snd].
  - repeat split. exact Hsame.
  - repeat split. unfold same_but_answer_opposing in *.
    change (advance text (set_answer_opposing None s1)
            = advance text (set_answer_opposing None s2)).
    rewrite Hsame. reflexivity.
Qed.

Lemma construct_argument_ignores_answer_opposing_witness :
  let s1 := in_position alice in
  let s2 := fst (Debater.initial_position "Q" "D" "another answer" alice) in
  snd (construct_argument_of debater "story" "" s1)
  = snd (construct_argument_of debater "story" "" s2)
  /\ is_ok (snd (construct_argument_of debater "story" "" s1)) = true.
Proof.
  intros s1 s2.
  assert (Hsame : same_but_answer_opposing s1 s2) by reflexivity.
  destruct (construct_argument_ignores_answer_opposing debater s1 s2
              "story" "" Hsame) as (Htext & _).
  split; [exact Htext | vm_compute; reflexivity].
Defined.

(** ** Calls before the position is set *)

(** C4. A consultant or a debater that comes from [__init__] and on which
    [initial_position] has not been called: [construct_argument] and
    [initial_response] both raise [AttributeError] on [_question], the
    first position attribute that they read (this is the error that the
    specification calls PositionNotSetError), and the object is unchanged,
    its round counter still 0.  For the consultant this supposes that its
    protocol module files an opening request, since the lookup of that
    template comes before the reading of the question. *)
Theorem position_not_set (consultant_prompt : Protocol)
    (api_key provider model name : string) (word_limit : Z)
    (story transcript : string) :
  (forall self,
     Debater.__init__ api_key provider model name word_limit = Ok self ->
     Debater.construct_argument story transcript self
       = (self, Raise (AttributeError "_question"))
     /\ Debater.initial_response self
        = (self, Raise (AttributeError "_question"))
     /\ self.(_current_round) = 0)
  /\ (forall self,
     Consultant.__init__ consultant_prompt api_key provider model name
       word_limit = Ok self ->
     is_Some (consultant_prompt.(new_argument) !! "opening_argument_request") ->
     Consultant.construct_argument story transcript self
       = (self, Raise (AttributeError "_question"))
     /\ Consultant.initial_response self
        = (self, Raise (AttributeError "_question"))
     /\ self.(_current_round) = 0).
Proof.
  split.
  - intros self Hinit.
    destruct (Debater_init_inv _ _ _ _ _ _ Hinit)
      as (Hp & Ha & _ & Hr & Hq & _).
    split; [|split; [|exact Hr]].
    + change (construct_argument_of debater story transcript self
              = (self, Raise (AttributeError "_question"))).
      rewrite construct_argument_unfold. unfold render.
      rewrite Hr, Hp, Hq. reflexivity.
    + unfold Debater.initial_response, mbind, M_bind, read, getattr.
      rewrite Hq. reflexivity.
  - intros self Hinit [request Hrequest].
    destruct (Consultant_init_inv _ _ _ _ _ _ _ Hinit)
      as (Hp & Ha & _ & Hr & Hq & _).
    split; [|split; [|exact Hr]].
    + change (construct_argument_of consultant story transcript self
              = (self, Raise (AttributeError "_question"))).
      rewrite construct_argument_unfold. unfold render, dict_item.
      rewrite Hr, Hp, Hq. cbn [new_argument_key Z.eqb].
      rewrite Hrequest. reflexivity.
    + unfold Consultant.initial_response, mbind, M_bind, read, getattr.
      rewrite Hq. reflexivity.
Qed.

Lemma position_not_set_witness :
  Debater.construct_argument "story" "" alice
    = (alice, Raise (AttributeError "_question"))
  /\ Consultant.initial_response carol
     = (carol, Raise (AttributeError "_question"))
  /\ carol.(_current_round) = 0.
Proof.
  destruct (position_not_set probe_prompt
              "test_api_key" "openai" "test_model" "Alice" 100 "story" "")
    as [Hdebater _].
  destruct (position_not_set probe_prompt
              "test_api_key" "openai" "test_model" "Carol" 100 "story" "")
    as [_ Hconsultant].
  split.
  - apply (Hdebater alice). vm_compute. reflexivity.
  - assert (Hinit : Consultant.__init__ probe_prompt
              "test_api_key" "openai" "test_model" "Carol" 100 = Ok carol)
      by (vm_compute; reflexivity).
    assert (Hkey : is_Some (probe_prompt.(new_argument)
                            !! "opening_argument_request"))
      by (vm_compute; eauto).
    destruct (Hconsultant carol Hinit Hkey) as (_ & Hresponse & Hround).
    split; [exact Hresponse | exact Hround].
Defined.

(** ** Letter resolution of the interactive debater *)

Lemma initial_position_resolved (question : string)
    (answer_defending answer_opposing : gmap string string)
    (opponent_name : string) (self : Expert) :
  fst (IDebater.initial_position question answer_defending answer_opposing
         opponent_name self)
  = resolved question answer_defending answer_opposing opponent_name self.
Proof.
  unfold IDebater.initial_position, resolved, mbind, M_bind, assign, getattr,
    read, eval, dict_item.
  cbn -[py_or py_eq dict_get Template.substitute].
  destruct (answer_defending !! _) as [text|];
    cbn -[py_or py_eq dict_get Template.substitute]; [|reflexivity].
  destruct (answer_opposing !! _) as [text'|];
    cbn -[py_or py_eq dict_get Template.substitute]; reflexivity.
Qed.

Lemma truthy_VStr (s : string) : s <> "" -> truthy (VStr s) = true.
Proof.
  intros Hs. cbn. destruct (String.eqb_spec s ""); [contradiction|reflexivity].
Qed.

Lemma py_or_VStr (s : string) (b : value) : s <> "" -> py_or (VStr s) b = VStr s.
Proof. intros Hs. unfold py_or. rewrite truthy_VStr by exact Hs. reflexivity. Qed.

Lemma py_or_VNone (b : value) : py_or VNone b = b.
Proof. reflexivity. Qed.

Lemma py_eq_refl (a : value) : py_eq a a = true.
Proof. unfold py_eq. apply bool_decide_eq_true_2. reflexivity. Qed.

Lemma py_eq_VStr_VNone (s : string) : py_eq (VStr s) VNone = false.
Proof. reflexivity. Qed.

(** C5. The two examples of letter resolution.  With the defending map
    [{A: X}] and the opposing map [{B: Y}], the interactive debater ends up
    with answer A = X, answer B = Y, defending letter A and opposing letter
    B; with the defending map [{B: Y}] and the opposing map [{A: X}], with
    defending letter B and opposing letter A.  This holds on any object, for
    any question and opponent name. *)
Theorem interactive_letter_resolution (self : Expert)
    (question opponent_name : string) :
  let s1 := fst (IDebater.initial_position question
                   {[ "A" := "X" ]} {[ "B" := "Y" ]} opponent_name self) in
  let s2 := fst (IDebater.initial_position question
                   {[ "B" := "Y" ]} {[ "A" := "X" ]} opponent_name self) in
  (s1.(_answer_a) = Some (VStr "X")
   /\ s1.(_answer_b) = Some (VStr "Y")
   /\ s1.(_answer_defending_letter) = Some "A"
   /\ s1.(_answer_opposing_letter) = Some "B")
  /\ (s2.(_answer_defending_letter) = Some "B"
      /\ s2.(_answer_opposing_letter) = Some "A").
Proof.
  cbn zeta. rewrite !initial_position_resolved.
  split; [split; [|split; [|split]] | split]; vm_compute; reflexivity.
Qed.

(** C6. Letter invariant.  When each of the two maps holds exactly one
    letter with a non-empty text and the two letters are A and B, one
    each, then after [IDebater.initial_position] the defending letter is the
    letter of the defending map and the opposing letter that of the
    opposing map, so the two are distinct and are A and B between them; the
    defended and opposed answers are the texts of the respective maps; and
    answer A and answer B are the texts that came with the letters A and
    B. *)
Theorem interactive_letters_partition (self : Expert)
    (question opponent_name : string)
    (letter_defending text_defending letter_opposing text_opposing : string) :
  text_defending <> "" ->
  text_opposing <> "" ->
  (letter_defending = "A" /\ letter_opposing = "B")
  \/ (letter_defending = "B" /\ letter_opposing = "A") ->
  let s := fst (IDebater.initial_position question
                  {[ letter_defending := text_defending ]}
                  {[ letter_opposing := text_opposing ]}
                  opponent_name self) in
  s.(_answer_defending_letter) = Some letter_defending
  /\ s.(_answer_opposing_letter) = Some letter_opposing
  /\ letter_defending <> letter_opposing
  /\ (forall l, l = "A" \/ l = "B" <->
                l = letter_defending \/ l = letter_opposing)
  /\ s.(_answer_defending) = Some text_defending
  /\ s.(_answer_opposing) = Some text_opposing
  /\ s.(_answer_a) = Some (VStr (if String.eqb letter_defending "A"
                                  then text_defending else text_opposing))
  /\ s.(_answer_b) = Some (VStr (if String.eqb letter_defending "B"
                                  then text_defending else text_opposing)).
Proof.
  intros Hd Ho Hletters. cbn zeta. rewrite initial_position_resolved.
  unfold resolved, dict_get.
  destruct Hletters as [[-> ->] | [-> ->]].
  - rewrite !lookup_singleton_eq.
    rewrite !(lookup_singleton_ne "A" "B") by discriminate.
    rewrite !(lookup_singleton_ne "B" "A") by discriminate.
    rewrite !py_or_VStr by assumption. rewrite !py_or_VNone.
    rewrite !py_eq_refl, !py_eq_VStr_VNone.
    rewrite !lookup_singleton_eq. cbn.
    repeat split; try discriminate; tauto.
  - rewrite !lookup_singleton_eq.
    rewrite !(lookup_singleton_ne "A" "B") by discriminate.
    rewrite !(lookup_singleton_ne "B" "A") by discriminate.
    rewrite !py_or_VStr by assumption. rewrite !py_or_VNone.
    rewrite !py_eq_refl, !py_eq_VStr_VNone.
    rewrite !lookup_singleton_eq. cbn.
    repeat split; try discriminate; tauto.
Qed.

Lemma interactive_letters_partition_witness :
  let s := fst (IDebater.initial_position "What is the best language?"
                  {[ "B" := "Python" ]} {[ "A" := "JavaScript" ]}
                  "Opponent" irene) in
  s.(_answer_defending_letter) = Some "B"
  /\ s.(_answer_opposing_letter) = Some "A"
  /\ s.(_answer_defending) = Some "Python"
  /\ s.(_answer_opposing) = Some "JavaScript"
  /\ s.(_answer_a) = Some (VStr "JavaScript")
  /\ s.(_answer_b) = Some (VStr "Python").
Proof.
  intros s.
  assert (Hd : "Python" <> "") by discriminate.
  assert (Ho : "JavaScript" <> "") by discriminate.
  destruct (interactive_letters_partition irene
              "What is the best language?" "Opponent"
              "B" "Python" "A" "JavaScript" Hd Ho
              (or_intror (conj eq_refl eq_refl)))
    as (Hdl & Hol & _ & _ & Hdt & Hot & Ha & Hb).
  split; [exact Hdl|]. split; [exact Hol|]. split; [exact Hdt|].
  split; [exact Hot|]. split; [exact Ha | exact Hb].
Defined.

(** C7. Conflicts go to the defending map.  After
    [IDebater.initial_position], answer A is the text that the defending
    map holds for the letter A whenever that text exists and is not empty,
    in particular when the opposing map holds a different non-empty text for
    A; it is what [get] finds for A in the opposing map only when the
    defending map has no A or has the empty text for it.  The same holds
    for the letter B and answer B. *)
Theorem defending_map_first (self : Expert) (question opponent_name : string)
    (answer_defending answer_opposing : gmap string string) :
  let s := fst (IDebater.initial_position question answer_defending
                  answer_opposing opponent_name self) in
  (forall x y,
     answer_defending !! "A" = Some x -> answer_opposing !! "A" = Some y ->
     x <> "" -> y <> "" -> x <> y ->
     s.(_answer_a) = Some (VStr x))
  /\ (forall x y,
     answer_defending !! "B" = Some x -> answer_opposing !! "B" = Some y ->
     x <> "" -> y <> "" -> x <> y ->
     s.(_answer_b) = Some (VStr x))
  /\ (forall x, answer_defending !! "A" = Some x -> x <> "" ->
        s.(_answer_a) = Some (VStr x))
  /\ (forall x, answer_defending !! "B" = Some x -> x <> "" ->
        s.(_answer_b) = Some (VStr x))
  /\ (answer_defending !! "A" = None \/ answer_defending !! "A" = Some "" ->
        s.(_answer_a) = Some (dict_get answer_opposing "A"))
  /\ (answer_defending !! "B" = None \/ answer_defending !! "B" = Some "" ->
        s.(_answer_b) = Some (dict_get answer_opposing "B")).
Proof.
  cbn zeta. rewrite initial_position_resolved.
  assert (Ha : _answer_a (resolved question answer_defending answer_opposing
                            opponent_name self)
               = Some (py_or (dict_get answer_defending "A")
                             (dict_get answer_opposing "A"))).
  { unfold resolved. destruct (answer_defending !! _); [|reflexivity].
    destruct (answer_opposing !! _); reflexivity. }
  assert (Hb : _answer_b (resolved question answer_defending answer_opposing
                            opponent_name self)
               = Some (py_or (dict_get answer_defending "B")
                             (dict_get answer_opposing "B"))).
  { unfold resolved. destruct (answer_defending !! _); [|reflexivity].
    destruct (answer_opposing !! _); reflexivity. }
  rewrite Ha, Hb. unfold py_or, dict_get.
  split; [|split; [|split; [|split; [|split]]]].
  - intros x y -> _ Hx _ _. rewrite truthy_VStr by exact Hx. reflexivity.
  - intros x y -> _ Hx _ _. rewrite truthy_VStr by exact Hx. reflexivity.
  - intros x -> Hx. rewrite truthy_VStr by exact Hx. reflexivity.
  - intros x -> Hx. rewrite truthy_VStr by exact Hx. reflexivity.
  - intros [-> | ->]; reflexivity.
  - intros [-> | ->]; reflexivity.
Qed.

Lemma defending_map_first_witness :
  let outcome := IDebater.initial_position "Q"
                   {[ "A" := "X"; "B" := "Z" ]} {[ "A" := "Y"; "B" := "W" ]}
                   "Bob" irene in
  (fst outcome).(_answer_a) = Some (VStr "X")
  /\ (fst outcome).(_answer_b) = Some (VStr "Z")
  /\ snd outcome = Ok "question(Q,A=X,B=Z,A,B,Bob)".
Proof.
  intros outcome.
  destruct (defending_map_first irene "Q" "Bob"
              {[ "A" := "X"; "B" := "Z" ]} {[ "A" := "Y"; "B" := "W" ]})
    as (HA & HB & _).
  split; [|split].
  - apply (HA "X" "Y"); try discriminate; vm_compute; reflexivity.
  - apply (HB "Z" "W"); try discriminate; vm_compute; reflexivity.
  - vm_compute. reflexivity.
Defined.


(** ** Further properties of the expert classes *)

Lemma debater_render (self : Expert) (question answer_defending : string)
    (story transcript : string) :
  debater_ready self question answer_defending ->
  render self story transcript
    (new_argument_key self.(_current_round))
    (thinking_key debater self.(_current_round))
  = Ok (debater_argument_text self.(_current_round) story transcript
          question answer_defending self.(_word_limit)).
Proof.
  intros (Hp & Ha & Hq & Hd).
  unfold render, new_argument_key, thinking_key, debater_argument_text,
    debater_request_text, debater_advice_text.
  rewrite Hp, Ha, Hq, Hd.
  destruct (_current_round self =? 0);
    [|destruct (_current_round self =? 1)]; vm_compute; reflexivity.
Qed.

Lemma debater_ready_in_position (api_key provider model name : string)
    (word_limit : Z) (self : Expert) (q d o : string) :
  Debater.__init__ api_key provider model name word_limit = Ok self ->
  debater_ready (fst (Debater.initial_position q d o self)) q d
  /\ (fst (Debater.initial_position q d o self)).(_current_round) = 0
  /\ (fst (Debater.initial_position q d o self)).(_word_limit) = word_limit.
Proof.
  intros Hinit.
  destruct (Debater_init_inv _ _ _ _ _ _ Hinit) as (Hp & Ha & Hw & Hr & _).
  unfold debater_ready. cbn. auto.
Qed.

Lemma debater_ready_advance (self : Expert) (q d text : string) :
  debater_ready self q d -> debater_ready (advance text self) q d.
Proof. intros H. exact H. Qed.


Lemma unsupported_provider (provider : string) :
  provider <> "openai" -> provider <> "anthropic" ->
  APIClient._initialize_client provider
  = Raise (ValueError ("Unsupported provider: " +:+ provider)).
Proof.
  intros H1 H2. unfold APIClient._initialize_client.
  destruct (String.eqb_spec provider "openai"); [contradiction|].
  destruct (String.eqb_spec provider "anthropic"); [contradiction|].
  reflexivity.
Qed.

(** X1. A provider other than [openai] and [anthropic] makes the
    constructor of each of the three classes raise [ValueError] with the
    message of [APIClient._initialize_client], whatever the other arguments
    and whatever the protocol modules hold: no object is made. *)
Theorem constructors_reject_provider
    (consultant_prompt interactive_prompt : Protocol)
    (api_key provider model name : string) (word_limit : Z) :
  provider <> "openai" -> provider <> "anthropic" ->
  let refused : result Expert :=
    Raise (ValueError ("Unsupported provider: " +:+ provider)) in
  Debater.__init__ api_key provider model name word_limit = refused
  /\ Consultant.__init__ consultant_prompt api_key provider model name
       word_limit = refused
  /\ IDebater.__init__ interactive_prompt api_key provider model name
       word_limit = refused.
Proof.
  intros H1 H2. cbn zeta.
  unfold IDebater.__init__, Consultant.__init__, Debater.__init__.
  rewrite (unsupported_provider provider H1 H2).
  split; [|split]; reflexivity.
Qed.

Lemma constructors_reject_provider_witness :
  Consultant.__init__ probe_prompt "test_api_key" "invalid_provider"
    "test_model" "Carol" 100
  = Raise (ValueError "Unsupported provider: invalid_provider").
Proof.
  assert (H1 : "invalid_provider" <> "openai") by discriminate.
  assert (H2 : "invalid_provider" <> "anthropic") by discriminate.
  destruct (constructors_reject_provider probe_prompt interactive_probe_prompt
              "test_api_key" "invalid_provider" "test_model" "Carol" 100
              H1 H2) as (_ & Hconsultant & _).
  exact Hconsultant.
Defined.



(** X3. A debater made by [__init__] and given a position by
    [initial_position] never raises in [construct_argument]: a session of
    any length, on any stories and transcripts, returns one text per round
    and leaves the counter at the number of rounds. *)
Theorem debater_session_returns (api_key provider model name : string)
    (word_limit : Z) (self : Expert) (q d o : string)
    (inputs : list (string * string)) :
  Debater.__init__ api_key provider model name word_limit = Ok self ->
  exists self' texts,
    rounds Debater.construct_argument inputs
      (fst (Debater.initial_position q d o self)) = (self', Ok texts)
    /\ length texts = length inputs
    /\ self'.(_current_round) = Z.of_nat (length inputs).
Proof.
  intros Hinit.
  destruct (debater_ready_in_position _ _ _ _ _ _ q d o Hinit)
    as (Hready & Hround & _).
  revert Hready Hround.
  generalize (fst (Debater.initial_position q d o self)). clear Hinit self.
  assert (Hgen : forall inputs s,
    debater_ready s q d ->
    exists s' texts,
      rounds Debater.construct_argument inputs s = (s', Ok texts)
      /\ length texts = length inputs
      /\ s'.(_current_round) = s.(_current_round) + Z.of_nat (length inputs)).
  { clear inputs. induction inputs as [|[story transcript] rest IH];
      intros s Hready.
    - exists s, []. cbn. repeat split. lia.
    - cbn [rounds]. unfold mbind at 1, M_bind at 1.
      change (Debater.construct_argument story transcript s)
        with (construct_argument_of debater story transcript s).
      rewrite construct_argument_unfold.
      rewrite (debater_render s q d story transcript Hready).
      set (text := debater_argument_text _ _ _ _ _ _).
      destruct (IH (advance text s) (debater_ready_advance s q d text Hready))
        as (s' & texts & Hrun & Hlen & Hr).
      unfold Ok at 1. cbv beta iota.
      unfold mbind at 1, M_bind at 1. rewrite Hrun.
      exists s', (text :: texts). split; [reflexivity|].
      split; [cbn; congruence|].
      rewrite Hr, advance_round. cbn [length]. lia. }
  intros s Hready Hround.
  destruct (Hgen inputs s Hready) as (s' & texts & Hrun & Hlen & Hr).
  exists s', texts. rewrite Hround in Hr. auto.
Qed.

Lemma debater_session_returns_witness :
  exists self' texts,
    rounds Debater.construct_argument three_rounds (in_position alice)
      = (self', Ok texts)
    /\ length texts = 3%nat
    /\ self'.(_current_round) = 3.
Proof.
  assert (Hinit : Debater.__init__ "test_api_key" "openai" "test_model"
                    "Alice" 100 = Ok alice) by (vm_compute; reflexivity).
  exact (debater_session_returns "test_api_key" "openai" "test_model" "Alice"
           100 alice "Q" "D" "O" three_rounds Hinit).
Defined.




(** X5. [initial_response] reads and does not write.  On any object it
    leaves every attribute as it was.  After [initial_position q d o] of a
    consultant or a debater it returns the assistant-response template
    rendered with [q], [d] and [o]; with the templates of [debater_prompt]
    that is the sentence in which the debater restates both answers. *)
Theorem initial_response_after_position (self : Expert) (q d o : string) :
  (forall s, fst (Debater.initial_response s) = s
             /\ fst (Consultant.initial_response s) = s)
  /\ (let s := fst (Debater.initial_position q d o self) in
      Debater.initial_response s
      = (s, Template.substitute self.(_protocol).(assistant_response)
              (position_kwargs q d o)))
  /\ (let s := fst (Consultant.initial_position q d o self) in
      Consultant.initial_response s
      = (s, Template.substitute self.(_protocol).(assistant_response)
              (position_kwargs q d o)))
  /\ (self.(_protocol) = debater_prompt.module ->
      snd (Debater.initial_response (fst (Debater.initial_position q d o self)))
      = Ok (debater_response_text q d o)).
Proof.
  split; [|split; [|split]].
  - intros s.
    unfold Debater.initial_response, Consultant.initial_response, mbind,
      M_bind, read, getattr, eval.
    destruct (_question s), (_answer_defending s), (_answer_opposing s);
      split; reflexivity.
  - reflexivity.
  - reflexivity.
  - intros Hp.
    change (snd (Debater.initial_response
                   (fst (Debater.initial_position q d o self))))
      with (Template.substitute self.(_protocol).(assistant_response)
              (position_kwargs q d o)).
    rewrite Hp. vm_compute. reflexivity.
Qed.

Lemma initial_response_after_position_witness :
  Debater.initial_response (in_position alice)
  = (in_position alice, Ok (debater_response_text "Q" "D" "O")).
Proof.
  destruct (initial_response_after_position alice "Q" "D" "O")
    as (Hpure & _ & _ & Htext).
  destruct (Hpure (in_position alice)) as [Hsame _].
  rewrite (surjective_pairing (Debater.initial_response (in_position alice))).
  rewrite Hsame. unfold in_position at 2.
  rewrite Htext by reflexivity. reflexivity.
Defined.

Lemma same_but_round_advance (text : string) (self : Expert) :
  same_but_round self (advance text self).
Proof. reflexivity. Qed.

(** X6. A session counts the rounds that returned.  However a session
    ends, with all its texts or with the exception of the first round that
    raised, the object differs from the one it started with in the counter
    and the current argument only, and the counter has gone up by the
    number of rounds that returned: all of them if the session returned,
    fewer if it raised. *)
Theorem session_counts_returned_rounds (v : variant)
    (inputs : list (string * string)) :
  forall (self self' : Expert) (out : result (list string)),
    rounds (construct_argument_of v) inputs self = (self', out) ->
    same_but_round self self'
    /\ exists k : nat,
         self'.(_current_round) = self.(_current_round) + Z.of_nat k
         /\ match out with
            | inl _ => (k < length inputs)%nat
            | inr texts => k = length inputs /\ length texts = k
            end.
Proof.
  induction inputs as [|[story transcript] rest IH]; intros self self' out Hrun.
  - cbn in Hrun. inversion Hrun; subst. split; [reflexivity|].
    exists 0%nat. cbn. split; [lia | split; reflexivity].
  - cbn [rounds] in Hrun. unfold mbind at 1, M_bind at 1 in Hrun.
    rewrite construct_argument_unfold in Hrun.
    destruct (render self story transcript _ _) as [e|text].
    + inversion Hrun; subst. split; [reflexivity|].
      exists 0%nat. cbn. split; lia.
    + unfold mbind at 1, M_bind at 1 in Hrun.
      destruct (rounds (construct_argument_of v) rest (advance text self))
        as [s1 out1] eqn:Hrest.
      destruct (IH _ _ _ Hrest) as (Hsame & k & Hk & Hout).
      rewrite advance_round in Hk.
      assert (Hframe : same_but_round self s1).
      { unfold same_but_round in *.
        rewrite <- Hsame. apply same_but_round_advance. }
      destruct out1 as [e|texts]; cbn in Hrun; inversion Hrun; subst;
        (split; [exact Hframe|]); exists (S k); cbn [length].
      * split; lia.
      * destruct Hout as [-> Hlen]. split; [lia|].
        split; [reflexivity | cbn [length]; rewrite Hlen; reflexivity].
Qed.

Lemma session_counts_returned_rounds_witness :
  let run := rounds (construct_argument_of consultant) three_rounds
               (consultant_in_position dave) in
  snd run = Raise (KeyError "judge")
  /\ exists k : nat,
       (fst run).(_current_round) = Z.of_nat k /\ (k < 3)%nat.
Proof.
  intros run.
  assert (Hrun : run = (fst run, Raise (KeyError "judge")))
    by (vm_compute; reflexivity).
  destruct (session_counts_returned_rounds consultant three_rounds
              (consultant_in_position dave) (fst run) _ Hrun)
    as (_ & k & Hk & Hlt).
  split; [vm_compute; reflexivity|].
  exists k. split; [exact Hk | exact Hlt].
Defined.

(** X7. Consultant and debater differ in one round only.  On one and the
    same object the two [construct_argument] methods have the same outcome
    and the same effect whenever the counter is not 1; so do the two
    [initial_position] and the two [initial_response] methods, always. *)
Theorem consultant_debater_agree (self : Expert) (story transcript : string)
    (q d o : string) :
  (self.(_current_round) <> 1 ->
     Consultant.construct_argument story transcript self
     = Debater.construct_argument story transcript self)
  /\ Consultant.initial_position q d o self
     = Debater.initial_position q d o self
  /\ Consultant.initial_response self = Debater.initial_response self.
Proof.
  split; [|split; reflexivity].
  intros Hr.
  change (construct_argument_of consultant story transcript self
          = construct_argument_of debater story transcript self).
  rewrite !construct_argument_unfold. unfold thinking_key.
  destruct (_current_round self =? 0); [reflexivity|].
  destruct (Z.eqb_spec (_current_round self) 1); [contradiction|reflexivity].
Qed.

Lemma consultant_debater_agree_witness :
  let third := advance "second" (advance "first" (in_position alice)) in
  Consultant.construct_argument "story" "" third
  = Debater.construct_argument "story" "" third.
Proof.
  intros third.
  destruct (consultant_debater_agree third "story" "" "Q" "D" "O")
    as [Hsame _].
  apply Hsame. vm_compute. discriminate.
Defined.

Example consultant_debater_differ :
  let second := advance "first" (in_position alice) in
  snd (Consultant.construct_argument "story" "" second)
  <> snd (Debater.construct_argument "story" "" second).
Proof. vm_compute. discriminate. Qed.


(** ** Further properties of the interactive debater *)

Lemma initial_position_outcome (question : string)
    (answer_defending answer_opposing : gmap string string)
    (opponent_name : string) (self : Expert) :
  snd (IDebater.initial_position question answer_defending answer_opposing
         opponent_name self)
  = let a := py_or (dict_get answer_defending "A")
               (dict_get answer_opposing "A") in
    let b := py_or (dict_get answer_defending "B")
               (dict_get answer_opposing "B") in
    let dl := if py_eq a (dict_get answer_defending "A") then "A" else "B" in
    let ol := if py_eq a (dict_get answer_opposing "A") then "A" else "B" in
    match answer_defending !! dl with
    | None => Raise (KeyError dl)
    | Some _ =>
        match answer_opposing !! ol with
        | None => Raise (KeyError ol)
        | Some _ =>
            Template.substitute self.(_protocol).(user_question)
              (interactive_kwargs question a b dl ol opponent_name)
        end
    end.
Proof.
  unfold IDebater.initial_position, interactive_kwargs, mbind, M_bind, assign,
    getattr, read, eval, dict_item.
  cbn -[py_or py_eq dict_get Template.substitute].
  destruct (answer_defending !! _) as [text|];
    cbn -[py_or py_eq dict_get Template.substitute]; [|reflexivity].
  destruct (answer_opposing !! _) as [text'|];
    cbn -[py_or py_eq dict_get Template.substitute]; reflexivity.
Qed.


Lemma py_eq_VNone_VStr (s : string) : py_eq VNone (VStr s) = false.
Proof. reflexivity. Qed.

Lemma initial_position_well_formed (self : Expert)
    (question opponent_name : string)
    (letter_defending text_defending letter_opposing text_opposing : string) :
  text_defending <> "" ->
  (letter_defending = "A" /\ letter_opposing = "B")
  \/ (letter_defending = "B" /\ letter_opposing = "A") ->
  let answer_a := VStr (if String.eqb letter_defending "A"
                        then text_defending else text_opposing) in
  let answer_b := VStr (if String.eqb letter_defending "B"
                        then text_defending else text_opposing) in
  IDebater.initial_position question
    {[ letter_defending := text_defending ]}
    {[ letter_opposing := text_opposing ]} opponent_name self
  = (interactive_position question opponent_name answer_a answer_b
       letter_defending text_defending letter_opposing text_opposing self,
     Template.substitute self.(_protocol).(user_question)
       (interactive_kwargs question answer_a answer_b
          letter_defending letter_opposing opponent_name)).
Proof.
  intros Hd Hletters. cbn zeta.
  rewrite (surjective_pairing (IDebater.initial_position _ _ _ _ _)).
  rewrite initial_position_resolved, initial_position_outcome.
  unfold resolved, dict_get. cbn zeta.
  destruct Hletters as [[-> ->] | [-> ->]].
  - rewrite !lookup_singleton_eq.
    rewrite !(lookup_singleton_ne "A" "B") by discriminate.
    rewrite !(lookup_singleton_ne "B" "A") by discriminate.
    rewrite !py_or_VStr by assumption. rewrite !py_or_VNone.
    rewrite !py_eq_refl, !py_eq_VStr_VNone.
    rewrite !lookup_singleton_eq. reflexivity.
  - rewrite !lookup_singleton_eq.
    rewrite !(lookup_singleton_ne "A" "B") by discriminate.
    rewrite !(lookup_singleton_ne "B" "A") by discriminate.
    rewrite !py_or_VStr by assumption. rewrite !py_or_VNone.
    rewrite !py_eq_refl, !py_eq_VStr_VNone.
    rewrite !lookup_singleton_eq. reflexivity.
Qed.

(** X8. [IDebater.initial_position] on well-formed maps, in full.  When
    each map holds one letter, the letters are A and B and the defended
    text is not empty (the opposed text may be), the call assigns the
    question, the opponent name, the two answers by letter, the two letters
    and the two texts by role, touches nothing else (the round counter in
    particular), and returns the user-question template rendered with
    question, answer A, answer B, the two letters and the opponent name. *)
Theorem interactive_position_rendered (self : Expert)
    (question opponent_name : string)
    (letter_defending text_defending letter_opposing text_opposing : string) :
  text_defending <> "" ->
  (letter_defending = "A" /\ letter_opposing = "B")
  \/ (letter_defending = "B" /\ letter_opposing = "A") ->
  let answer_a := VStr (if String.eqb letter_defending "A"
                        then text_defending else text_opposing) in
  let answer_b := VStr (if String.eqb letter_defending "B"
                        then text_defending else text_opposing) in
  IDebater.initial_position question
    {[ letter_defending := text_defending ]}
    {[ letter_opposing := text_opposing ]} opponent_name self
  = (interactive_position question opponent_name answer_a answer_b
       letter_defending text_defending letter_opposing text_opposing self,
     Template.substitute self.(_protocol).(user_question)
       (interactive_kwargs question answer_a answer_b
          letter_defending letter_opposing opponent_name))
  /\ (fst (IDebater.initial_position question
             {[ letter_defending := text_defending ]}
             {[ letter_opposing := text_opposing ]} opponent_name self)
     ).(_current_round) = self.(_current_round).
Proof.
  intros Hd Hletters. cbn zeta.
  rewrite (initial_position_well_formed self question opponent_name
             letter_defending text_defending letter_opposing text_opposing
             Hd Hletters).
  split; reflexivity.
Qed.

Lemma interactive_position_rendered_witness :
  let outcome := IDebater.initial_position "Q" {[ "B" := "Y" ]}
                   {[ "A" := "X" ]} "Bob" irene in
  snd outcome = Ok "question(Q,A=X,B=Y,B,A,Bob)"
  /\ (fst outcome).(_current_round) = 0.
Proof.
  intros outcome.
  assert (Hy : "Y" <> "") by discriminate.
  destruct (interactive_position_rendered irene "Q" "Bob" "B" "Y" "A" "X"
              Hy (or_intror (conj eq_refl eq_refl))) as [H Hround].
  fold outcome in H, Hround. split; [|exact Hround].
  rewrite H. vm_compute. reflexivity.
Defined.


Lemma rounds_cons (v : variant) (story transcript : string)
    (rest : list (string * string)) (self : Expert) :
  rounds (construct_argument_of v) ((story, transcript) :: rest) self
  = match render self story transcript
            (new_argument_key self.(_current_round))
            (thinking_key v self.(_current_round)) with
    | inl e => (self, inl e)
    | inr text =>
        (fst (rounds (construct_argument_of v) rest (advance text self)),
         match snd (rounds (construct_argument_of v) rest (advance text self))
         with
         | inl e => inl e
         | inr texts => inr (text :: texts)
         end)
    end.
Proof.
  cbn [rounds]. unfold mbind at 1, M_bind at 1.
  rewrite construct_argument_unfold.
  destruct (render self story transcript _ _) as [e|text]; [reflexivity|].
  unfold mbind, M_bind.
  destruct (rounds (construct_argument_of v) rest (advance text self))
    as [s' [e|texts]]; reflexivity.
Qed.

Lemma rounds_same_for_rounds (v : variant) (inputs : list (string * string)) :
  forall s1 s2 : Expert,
    same_for_rounds s1 s2 ->
    snd (rounds (construct_argument_of v) inputs s1)
    = snd (rounds (construct_argument_of v) inputs s2)
    /\ same_for_rounds (fst (rounds (construct_argument_of v) inputs s1))
         (fst (rounds (construct_argument_of v) inputs s2)).
Proof.
  induction inputs as [|[story transcript] rest IH]; intros s1 s2 Hsame.
  - cbn. auto.
  - rewrite !rounds_cons.
    destruct Hsame as (Hp & Ha & Hw & Hr & Hq & Hd).
    assert (Hrender : forall rk pk,
      render s1 story transcript rk pk = render s2 story transcript rk pk).
    { intros rk pk. unfold render. rewrite Hp, Ha, Hw, Hq, Hd. reflexivity. }
    rewrite Hrender, Hr.
    destruct (render s2 story transcript _ _) as [e|text].
    + cbn [fst snd]. split; [reflexivity|].
      unfold same_for_rounds. tauto.
    + assert (Hnext : same_for_rounds (advance text s1) (advance text s2)).
      { unfold same_for_rounds. cbn. rewrite Hr. tauto. }
      destruct (IH _ _ Hnext) as [Hout Hstate].
      cbn [fst snd]. rewrite Hout. split; [reflexivity | exact Hstate].
Qed.

(** X9. In the rounds an interactive debater is a debater.  After
    [IDebater.initial_position] on well-formed maps, a session of rounds
    has the outcome, texts or exception, that it has on the same object
    after [Debater.initial_position] with the question and the two texts:
    the letters and the opponent name play no part in the round
    prompts. *)
Theorem interactive_rounds_as_debater (self : Expert)
    (question opponent_name : string)
    (letter_defending text_defending letter_opposing text_opposing : string)
    (inputs : list (string * string)) :
  text_defending <> "" ->
  (letter_defending = "A" /\ letter_opposing = "B")
  \/ (letter_defending = "B" /\ letter_opposing = "A") ->
  snd (rounds IDebater.construct_argument inputs
         (fst (IDebater.initial_position question
                 {[ letter_defending := text_defending ]}
                 {[ letter_opposing := text_opposing ]} opponent_name self)))
  = snd (rounds Debater.construct_argument inputs
           (fst (Debater.initial_position question text_defending
                   text_opposing self))).
Proof.
  intros Hd Hletters.
  rewrite (initial_position_well_formed self question opponent_name
             letter_defending text_defending letter_opposing text_opposing
             Hd Hletters).
  cbn [fst].
  apply (rounds_same_for_rounds debater inputs).
  repeat split.
Qed.

Lemma interactive_rounds_as_debater_witness :
  snd (rounds IDebater.construct_argument three_rounds
         (interactive_in_position irene))
  = snd (rounds Debater.construct_argument three_rounds (in_position irene)).
Proof.
  assert (Hd : "D" <> "") by discriminate.
  exact (interactive_rounds_as_debater irene "Q" "Bob" "A" "D" "B" "O"
           three_rounds Hd (or_introl (conj eq_refl eq_refl))).
Defined.



(** X11. An empty defended text.  Under the letter A it makes the call
    raise [KeyError] on B: the empty text counts as absent, answer A becomes
    [None], and the defending letter falls to B, which the defending map
    does not hold.  Under the letter B the call returns, but answer B is
    [None] and not the empty text, so that the rendered question shows the
    word None. *)
Theorem interactive_empty_defended_text (self : Expert)
    (question opponent_name text : string) :
  let under_a := IDebater.initial_position question {[ "A" := "" ]}
                   {[ "B" := text ]} opponent_name self in
  let under_b := IDebater.initial_position question {[ "B" := "" ]}
                   {[ "A" := text ]} opponent_name self in
  (snd under_a = Raise (KeyError "B")
   /\ (fst under_a).(_answer_a) = Some VNone
   /\ (fst under_a).(_answer_defending_letter) = Some "B"
   /\ (fst under_a).(_answer_defending) = self.(_answer_defending))
  /\ under_b = (interactive_position question opponent_name (VStr text) VNone
                  "B" "" "A" text self,
                Template.substitute self.(_protocol).(user_question)
                  (interactive_kwargs question (VStr text) VNone "B" "A"
                     opponent_name)).
Proof.
  cbn zeta. split.
  - rewrite initial_position_resolved, initial_position_outcome.
    unfold resolved, dict_get. cbn zeta.
    rewrite !lookup_singleton_eq.
    rewrite !(lookup_singleton_ne "B" "A") by discriminate.
    change (py_or (VStr "") VNone) with VNone.
    rewrite !py_eq_VNone_VStr. cbv iota.
    rewrite !(lookup_singleton_ne "A" "B") by discriminate.
    repeat split.
  - rewrite (surjective_pairing (IDebater.initial_position _ _ _ _ _)).
    rewrite initial_position_resolved, initial_position_outcome.
    unfold resolved, dict_get. cbn zeta.
    rewrite !lookup_singleton_eq.
    rewrite !(lookup_singleton_ne "B" "A") by discriminate.
    rewrite !(lookup_singleton_ne "A" "B") by discriminate.
    rewrite !py_or_VNone.
    change (py_or (VStr "") VNone) with VNone.
    rewrite !py_eq_refl, !py_eq_VStr_VNone.
    rewrite !lookup_singleton_eq. reflexivity.
Qed.

Example interactive_empty_defended_text_shown :
  snd (IDebater.initial_position "Q" {[ "B" := "" ]} {[ "A" := "X" ]}
         "Bob" irene) = Ok "question(Q,A=X,B=None,B,A,Bob)".
Proof. vm_compute. reflexivity. Qed.

(** ** The task runner *)

Lemma aliases_inv (a target : string) :
  tasks.aliases !! a = Some target ->
  (a = "r" /\ target = "run-app") \/ (a = "t" /\ target = "run-tests")
  \/ (a = "b" /\ target = "build-image") \/ (a = "i" /\ target = "run-image")
  \/ (a = "a" /\ target = "all").
Proof.
  unfold tasks.aliases. rewrite !lookup_insert, lookup_singleton.
  repeat case_decide; intros Hlookup; inversion Hlookup; subst; tauto.
Qed.

Lemma cli_commands_inv (name : string) (id : tasks.command_id) :
  tasks.cli_commands !! name = Some id ->
  name = "run-app" \/ name = "run-tests" \/ name = "build-image"
  \/ name = "run-image" \/ name = "all".
Proof.
  unfold tasks.cli_commands. rewrite !lookup_insert, lookup_singleton.
  repeat case_decide; intros Hlookup; inversion Hlookup; subst; tauto.
Qed.

(** X12. The alias table and the command registry fit together.  Every
    alias of [AliasedGroup] leads [get_command] to a registered command,
    the one registered under the name that the alias stands for; and every
    registered name leads to its own command, no alias being in its way. *)
Theorem aliases_resolve (name : string) :
  (forall target, tasks.aliases !! name = Some target ->
     is_Some (tasks.cli_commands !! target)
     /\ tasks.get_command name = tasks.cli_commands !! target)
  /\ (forall id, tasks.cli_commands !! name = Some id ->
        tasks.get_command name = Some id).
Proof.
  split.
  - intros target H.
    destruct (aliases_inv name target H)
      as [[-> ->]|[[-> ->]|[[-> ->]|[[-> ->]|[-> ->]]]]];
      split; vm_compute; eauto.
  - intros id H.
    destruct (cli_commands_inv name id H) as [->|[->|[->|[->| ->]]]];
      vm_compute in H |- *; exact H.
Qed.

Lemma aliases_resolve_witness :
  tasks.get_command "t" = Some tasks.RunTests
  /\ tasks.get_command "all" = Some tasks.All.
Proof.
  split.
  - destruct (aliases_resolve "t") as [Halias _].
    destruct (Halias "run-tests" eq_refl) as [_ ->]. reflexivity.
  - destruct (aliases_resolve "all") as [_ Hname].
    exact (Hname tasks.All eq_refl).
Defined.

Section TaskRunner.

Variable PYTHON_EXECUTABLE : string.
Variable subprocess_run : list (list string) -> list string -> tasks.run_outcome.

Lemma run_command_dry (command : list string) (verbose : bool)
    (c : tasks.console) :
  tasks.run_command subprocess_run command true verbose c
  = ({| tasks.ran := c.(tasks.ran);
        tasks.out :=
          (if verbose
           then c.(tasks.out) ++ ["Executing: " +:+ String.concat " " command]
           else c.(tasks.out))
          ++ ["[DRY-RUN] " +:+ String.concat " " command];
        tasks.err := c.(tasks.err) |}, inr tt).
Proof. destruct verbose; reflexivity. Qed.

Lemma run_command_wet (command : list string) (verbose : bool)
    (c : tasks.console) :
  tasks.run_command subprocess_run command false verbose c
  = let c1 := {| tasks.ran := c.(tasks.ran) ++ [command];
                 tasks.out :=
                   (if verbose
                    then c.(tasks.out)
                         ++ ["Executing: " +:+ String.concat " " command]
                    else c.(tasks.out));
                 tasks.err := c.(tasks.err) |} in
    let failed line := {| tasks.ran := c1.(tasks.ran);
                          tasks.out := c1.(tasks.out);
                          tasks.err := c.(tasks.err) ++ [line] |} in
    match subprocess_run c.(tasks.ran) command with
    | tasks.Completed => (c1, inr tt)
    | tasks.CalledProcessError returncode text =>
        (failed ("Error occurred while executing a command: " +:+ text),
         inl (tasks.SystemExit returncode))
    | tasks.FileNotFoundError text =>
        (failed ("Command not found: " +:+ text), inl (tasks.SystemExit 127))
    | tasks.OtherException text =>
        (failed ("An unexpected error occurred: " +:+ text),
         inl (tasks.SystemExit 1))
    end.
Proof.
  unfold tasks.run_command, tasks.run, mbind, tasks.Sys_bind.
  destruct verbose; cbn; destruct (subprocess_run _ _); reflexivity.
Qed.

Lemma task_command_known (c : tasks.console) :
  tasks.task_command PYTHON_EXECUTABLE "run-app" c
    = (c, inr [PYTHON_EXECUTABLE; "-m"; "backend.app.main"])
  /\ tasks.task_command PYTHON_EXECUTABLE "run-tests" c
     = (c, inr (tasks.tests_command PYTHON_EXECUTABLE))
  /\ tasks.task_command PYTHON_EXECUTABLE "build-image" c
     = (c, inr tasks.build_command)
  /\ tasks.task_command PYTHON_EXECUTABLE "run-image" c
     = (c, inr tasks.image_command)
  /\ tasks.task_command PYTHON_EXECUTABLE "run-image-interactive" c
     = (c, inr ["docker"; "run"; "-it"; "-p"; "5000:5000";
                tasks.DOCKER_IMAGE_NAME]).
Proof. repeat split. Qed.

Lemma is_task_command_known :
  tasks.is_task_command PYTHON_EXECUTABLE
    [PYTHON_EXECUTABLE; "-m"; "backend.app.main"]
  /\ tasks.is_task_command PYTHON_EXECUTABLE
       (tasks.tests_command PYTHON_EXECUTABLE)
  /\ tasks.is_task_command PYTHON_EXECUTABLE tasks.build_command
  /\ tasks.is_task_command PYTHON_EXECUTABLE tasks.image_command
  /\ tasks.is_task_command PYTHON_EXECUTABLE
       ["docker"; "run"; "-it"; "-p"; "5000:5000"; tasks.DOCKER_IMAGE_NAME].
Proof.
  unfold tasks.is_task_command.
  split; [exists "run-app"|split; [exists "run-tests"|split;
    [exists "build-image"|split; [exists "run-image"
                                 |exists "run-image-interactive"]]]];
    eexists; split; reflexivity.
Qed.

(** One task of a command function: look the command up, run it. *)
Lemma task_step (name : string) (command : list string)
    (dry_run verbose : bool) (k : tasks.Sys unit) (c : tasks.console) :
  tasks.task_command PYTHON_EXECUTABLE name c = (c, inr command) ->
  (command ← tasks.task_command PYTHON_EXECUTABLE name;
   tasks.run_command subprocess_run command dry_run verbose;; k) c
  = match tasks.run_command subprocess_run command dry_run verbose c with
    | (c', inl r) => (c', inl r)
    | (c', inr _) => k c'
    end.
Proof.
  intros H. unfold mbind at 1, tasks.Sys_bind at 1. rewrite H.
  unfold mbind at 1, tasks.Sys_bind at 1. reflexivity.
Qed.


Lemma single_task (name : string) (command : list string)
    (dry_run verbose : bool) (c : tasks.console) :
  tasks.task_command PYTHON_EXECUTABLE name c = (c, inr command) ->
  (command ← tasks.task_command PYTHON_EXECUTABLE name;
   tasks.run_command subprocess_run command dry_run verbose) c
  = tasks.run_command subprocess_run command dry_run verbose c.
Proof.
  intros H. unfold mbind at 1, tasks.Sys_bind at 1. rewrite H. reflexivity.
Qed.

(** What a command other than [all] comes to: one [run_command] on a
    command of [TASKS]. *)
Lemma invoke_single (id : tasks.command_id)
    (dry_run verbose interactive : bool) (c : tasks.console) :
  id <> tasks.All ->
  tasks.is_task_command PYTHON_EXECUTABLE
    (tasks.single_command PYTHON_EXECUTABLE id interactive)
  /\ tasks.invoke PYTHON_EXECUTABLE subprocess_run id dry_run verbose
       interactive c
     = tasks.run_command subprocess_run
         (tasks.single_command PYTHON_EXECUTABLE id interactive)
         dry_run verbose c.
Proof.
  destruct (task_command_known c) as (Happ & Htests & Hbuild & Himage & Hit).
  destruct is_task_command_known as (Tapp & Ttests & Tbuild & Timage & Tit).
  intros Hid.
  destruct id; [| | | |contradiction]; cbn [tasks.invoke tasks.single_command].
  - split; [exact Tapp|]. apply single_task. exact Happ.
  - split; [exact Ttests|]. apply single_task. exact Htests.
  - split; [exact Tbuild|]. apply single_task. exact Hbuild.
  - destruct interactive.
    + split; [exact Tit|]. apply single_task. exact Hit.
    + split; [exact Timage|]. apply single_task. exact Himage.
Qed.

(** The loop of [all], unrolled. *)
Lemma for_all_tasks (dry_run verbose : bool) (c : tasks.console) :
  tasks.for_tasks PYTHON_EXECUTABLE subprocess_run
    ["run-tests"; "build-image"; "run-image"] dry_run verbose c
  = match tasks.run_command subprocess_run
            (tasks.tests_command PYTHON_EXECUTABLE) dry_run verbose c with
    | (c1, inl r) => (c1, inl r)
    | (c1, inr _) =>
        match tasks.run_command subprocess_run tasks.build_command
                dry_run verbose c1 with
        | (c2, inl r) => (c2, inl r)
        | (c2, inr _) =>
            match tasks.run_command subprocess_run tasks.image_command
                    dry_run verbose c2 with
            | (c3, inl r) => (c3, inl r)
            | (c3, inr _) => (c3, inr tt)
            end
        end
    end.
Proof.
  cbn [tasks.for_tasks].
  rewrite (task_step "run-tests" (tasks.tests_command PYTHON_EXECUTABLE))
    by reflexivity.
  destruct (tasks.run_command _ _ _ _ c) as [c1 [r|[]]]; [reflexivity|].
  rewrite (task_step "build-image" tasks.build_command) by reflexivity.
  destruct (tasks.run_command _ _ _ _ c1) as [c2 [r|[]]]; [reflexivity|].
  rewrite (task_step "run-image" tasks.image_command) by reflexivity.
  destruct (tasks.run_command _ _ _ _ c2) as [c3 [r|[]]]; reflexivity.
Qed.

(** X13. A dry run starts nothing.  With [dry_run] set, every command of
    the tool, [all] included, returns without starting a process, without
    exiting and without a line on standard error; all it does is write
    lines to standard output. *)
Theorem dry_run_starts_nothing (id : tasks.command_id)
    (verbose interactive : bool) (c : tasks.console) :
  exists lines,
    tasks.invoke PYTHON_EXECUTABLE subprocess_run id true verbose interactive c
    = ({| tasks.ran := c.(tasks.ran);
          tasks.out := c.(tasks.out) ++ lines;
          tasks.err := c.(tasks.err) |}, inr tt)
    /\ lines <> [].
Proof.
  destruct (decide (id = tasks.All)) as [->|Hid].
  - cbn [tasks.invoke]. unfold tasks.all_tasks.
    rewrite for_all_tasks, !run_command_dry. cbn [tasks.ran tasks.out tasks.err].
    destruct verbose.
    + eexists. split; [|shelve]. rewrite <- !app_assoc. reflexivity.
    + eexists. split; [|shelve]. rewrite <- !app_assoc. reflexivity.
    Unshelve. all: discriminate.
  - destruct (invoke_single id true verbose interactive c Hid) as [_ ->].
    rewrite run_command_dry. destruct verbose.
    + eexists. split; [rewrite <- !app_assoc; reflexivity | discriminate].
    + eexists. split; [reflexivity | discriminate].
Qed.

(** X14. The exit status of [run_command].  Without [dry_run] the
    command is started, once.  If [subprocess.run] returns, so does
    [run_command], and standard error stays as it was.  If it raises
    [CalledProcessError] the tool exits with the return code of the
    process; if [FileNotFoundError], with 127; if anything else, with 1; and
    in each of these cases standard error gets one line. *)
Theorem run_command_exit_status (command : list string) (verbose : bool)
    (c : tasks.console) :
  let outcome := subprocess_run c.(tasks.ran) command in
  let final := tasks.run_command subprocess_run command false verbose c in
  (fst final).(tasks.ran) = (c.(tasks.ran) ++ [command])%list
  /\ snd final = match tasks.exit_status outcome with
                 | None => inr tt
                 | Some code => inl (tasks.SystemExit code)
                 end
  /\ (outcome = tasks.Completed -> (fst final).(tasks.err) = c.(tasks.err))
  /\ (outcome <> tasks.Completed ->
      exists line, (fst final).(tasks.err) = (c.(tasks.err) ++ [line])%list).
Proof.
  cbn zeta. rewrite run_command_wet. cbn zeta.
  destruct (subprocess_run (tasks.ran c) command); cbn;
    repeat split; try discriminate; try contradiction; eauto.
Qed.

Lemma same_but_out_run_command (command : list string)
    (dry_run v1 v2 : bool) (c1 c2 : tasks.console) :
  tasks.same_but_out c1 c2 ->
  snd (tasks.run_command subprocess_run command dry_run v1 c1)
  = snd (tasks.run_command subprocess_run command dry_run v2 c2)
  /\ tasks.same_but_out
       (fst (tasks.run_command subprocess_run command dry_run v1 c1))
       (fst (tasks.run_command subprocess_run command dry_run v2 c2)).
Proof.
  intros [Hran Herr]. destruct dry_run.
  - rewrite !run_command_dry. cbn. unfold tasks.same_but_out. cbn. auto.
  - rewrite !run_command_wet. cbn zeta. rewrite Hran.
    destruct (subprocess_run (tasks.ran c2) command);
      unfold tasks.same_but_out; cbn; rewrite ?Hran, ?Herr; auto.
Qed.

Lemma for_tasks_cons (name : string) (rest : list string)
    (dry_run verbose : bool) (c : tasks.console) :
  tasks.for_tasks PYTHON_EXECUTABLE subprocess_run (name :: rest)
    dry_run verbose c
  = match tasks.TASKS PYTHON_EXECUTABLE !! name with
    | None => (c, inl (tasks.Exception (KeyError name)))
    | Some t =>
        match tasks.run_command subprocess_run t.(tasks.command)
                dry_run verbose c with
        | (c', inl r) => (c', inl r)
        | (c', inr _) =>
            tasks.for_tasks PYTHON_EXECUTABLE subprocess_run rest
              dry_run verbose c'
        end
    end.
Proof.
  cbn [tasks.for_tasks].
  unfold mbind at 1, tasks.Sys_bind at 1, tasks.task_command.
  destruct (tasks.TASKS PYTHON_EXECUTABLE !! name) as [t|]; [|reflexivity].
  unfold mbind at 1, tasks.Sys_bind at 1. reflexivity.
Qed.

Lemma same_but_out_for_tasks (names : list string) (dry_run v1 v2 : bool) :
  forall c1 c2 : tasks.console,
    tasks.same_but_out c1 c2 ->
    snd (tasks.for_tasks PYTHON_EXECUTABLE subprocess_run names dry_run v1 c1)
    = snd (tasks.for_tasks PYTHON_EXECUTABLE subprocess_run names dry_run v2 c2)
    /\ tasks.same_but_out
         (fst (tasks.for_tasks PYTHON_EXECUTABLE subprocess_run names dry_run
                 v1 c1))
         (fst (tasks.for_tasks PYTHON_EXECUTABLE subprocess_run names dry_run
                 v2 c2)).
Proof.
  induction names as [|name rest IH]; intros c1 c2 Hsame.
  - cbn. auto.
  - rewrite !for_tasks_cons.
    destruct (tasks.TASKS PYTHON_EXECUTABLE !! name) as [t|]; [|cbn; auto].
    destruct (same_but_out_run_command t.(tasks.command) dry_run v1 v2 c1 c2
                Hsame) as [Hres Hnext].
    destruct (tasks.run_command subprocess_run _ dry_run v1 c1) as [d1 [r1|[]]],
      (tasks.run_command subprocess_run _ dry_run v2 c2) as [d2 [r2|[]]];
      cbn [fst snd] in *; try discriminate.
    + auto.
    + apply IH. exact Hnext.
Qed.

(** X16. [verbose] adds lines and nothing else.  Any command of the tool,
    dry or not, starts the same processes, exits or returns in the same
    way and writes the same lines to standard error with [verbose] as
    without; the two runs may start from consoles that differ in what is
    on standard output. *)
Theorem verbose_adds_output_only (id : tasks.command_id)
    (dry_run interactive : bool) (c1 c2 : tasks.console) :
  tasks.same_but_out c1 c2 ->
  let loud := tasks.invoke PYTHON_EXECUTABLE subprocess_run id dry_run true
                interactive c1 in
  let quiet := tasks.invoke PYTHON_EXECUTABLE subprocess_run id dry_run false
                 interactive c2 in
  snd loud = snd quiet
  /\ (fst loud).(tasks.ran) = (fst quiet).(tasks.ran)
  /\ (fst loud).(tasks.err) = (fst quiet).(tasks.err).
Proof.
  intros Hsame. cbn zeta.
  enough (H : snd (tasks.invoke PYTHON_EXECUTABLE subprocess_run id dry_run
                     true interactive c1)
              = snd (tasks.invoke PYTHON_EXECUTABLE subprocess_run id dry_run
                       false interactive c2)
              /\ tasks.same_but_out
                   (fst (tasks.invoke PYTHON_EXECUTABLE subprocess_run id
                           dry_run true interactive c1))
                   (fst (tasks.invoke PYTHON_EXECUTABLE subprocess_run id
                           dry_run false interactive c2)))
    by (destruct H as [Hres [Hran Herr]]; auto).
  destruct (decide (id = tasks.All)) as [->|Hid].
  - cbn [tasks.invoke]. unfold tasks.all_tasks.
    destruct (same_but_out_for_tasks ["run-tests"; "build-image"; "run-image"]
                dry_run true false c1 c2 Hsame) as [Hres Hnext].
    destruct (tasks.for_tasks _ _ _ dry_run true c1) as [d1 [[code1|e1]|[]]],
      (tasks.for_tasks _ _ _ dry_run false c2) as [d2 [[code2|e2]|[]]];
      cbn [fst snd] in *; try discriminate; auto.
    inversion Hres; subst. destruct Hnext as [Hran Herr].
    unfold tasks.same_but_out, mbind, tasks.Sys_bind, tasks.echo_err,
      tasks.exit.
    cbn. rewrite Hran, Herr. auto.
  - destruct (invoke_single id dry_run true interactive c1 Hid) as [_ ->].
    destruct (invoke_single id dry_run false interactive c2 Hid) as [_ ->].
    apply same_but_out_run_command. exact Hsame.
Qed.


(** X15. [all] stops at the first failure.  The command [all] starts the
    tests, the build of the image and the container, in this order, each
    seeing the processes started before it.  At the first of them that
    does not complete it starts no further process, writes the error line
    of [run_command] and then the line that it stops, and exits with the
    status of that failure.  If all three complete it returns and standard
    error stays as it was. *)
Theorem all_tasks_stops_at_first_failure (verbose : bool) (c : tasks.console) :
  let tests := tasks.tests_command PYTHON_EXECUTABLE in
  let build := tasks.build_command in
  let image := tasks.image_command in
  let o1 := subprocess_run c.(tasks.ran) tests in
  let o2 := subprocess_run (c.(tasks.ran) ++ [tests]) build in
  let o3 := subprocess_run ((c.(tasks.ran) ++ [tests]) ++ [build]) image in
  let final := tasks.all_tasks PYTHON_EXECUTABLE subprocess_run false
                 verbose c in
  let stopped code started :=
    snd final = inl (tasks.SystemExit code)
    /\ (fst final).(tasks.ran) = (c.(tasks.ran) ++ started)%list
    /\ exists line,
         (fst final).(tasks.err)
         = (c.(tasks.err)
            ++ [line; "Stopping execution due to a failure."])%list in
  (forall code, tasks.exit_status o1 = Some code -> stopped code [tests])
  /\ (forall code, o1 = tasks.Completed -> tasks.exit_status o2 = Some code ->
        stopped code [tests; build])
  /\ (forall code, o1 = tasks.Completed -> o2 = tasks.Completed ->
        tasks.exit_status o3 = Some code ->
        stopped code [tests; build; image])
  /\ (o1 = tasks.Completed -> o2 = tasks.Completed -> o3 = tasks.Completed ->
        snd final = inr tt
        /\ (fst final).(tasks.ran)
           = (c.(tasks.ran) ++ [tests; build; image])%list
        /\ (fst final).(tasks.err) = c.(tasks.err)).
Proof.
  cbn zeta. unfold tasks.all_tasks. rewrite for_all_tasks.
  rewrite run_command_wet. cbn zeta.
  destruct (subprocess_run (tasks.ran c) _) as [|rc1 t1|t1|t1] eqn:E1;
    cbn [tasks.ran tasks.out tasks.err];
    [rewrite run_command_wet; cbn zeta; cbn [tasks.ran tasks.out tasks.err];
     destruct (subprocess_run (tasks.ran c ++ _) _) as [|rc2 t2|t2|t2] eqn:E2;
     [rewrite run_command_wet; cbn zeta; cbn [tasks.ran tasks.out tasks.err];
      destruct (subprocess_run ((tasks.ran c ++ _) ++ _) _)
        as [|rc3 t3|t3|t3] eqn:E3 |..] |..].
  all: unfold mbind, tasks.Sys_bind, tasks.echo_err, tasks.exit;
    cbn [fst snd tasks.ran tasks.out tasks.err tasks.exit_status].
  all: repeat split; intros; try discriminate;
    repeat match goal with
    | H : Some _ = Some _ |- _ => inversion H; subst; clear H
    end;
    try reflexivity;
    try (rewrite <- ?app_assoc; reflexivity);
    try (eexists; rewrite <- ?app_assoc; reflexivity).
Qed.

Lemma for_tasks_started (names : list string) (dry_run verbose : bool) :
  Forall (fun name => is_Some (tasks.TASKS PYTHON_EXECUTABLE !! name)) names ->
  forall c : tasks.console,
    let final := tasks.for_tasks PYTHON_EXECUTABLE subprocess_run names
                   dry_run verbose c in
    (forall e, snd final <> inl (tasks.Exception e))
    /\ exists started,
         (fst final).(tasks.ran) = (c.(tasks.ran) ++ started)%list
         /\ Forall (tasks.is_task_command PYTHON_EXECUTABLE) started
         /\ (length started <= length names)%nat.
Proof.
  induction 1 as [|name rest [t Ht] _ IH]; intros c; cbn zeta.
  - cbn. split; [discriminate|]. exists []. rewrite app_nil_r. auto.
  - rewrite for_tasks_cons, Ht.
    destruct dry_run.
    + rewrite run_command_dry.
      match goal with
      | |- context [tasks.for_tasks _ _ rest _ _ ?c'] =>
          destruct (IH c') as [Hexn (started & Hran & Hall & Hlen)]
      end.
      cbn zeta in Hexn, Hran. split; [exact Hexn|].
      exists started. cbn [tasks.ran] in Hran. cbn [length]. auto with lia.
    + rewrite run_command_wet. cbn zeta.
      assert (Htask : tasks.is_task_command PYTHON_EXECUTABLE (tasks.command t))
        by (exists name, t; auto).
      destruct (subprocess_run (tasks.ran c) (tasks.command t)).
      * match goal with
        | |- context [tasks.for_tasks _ _ rest _ _ ?c'] =>
            destruct (IH c') as [Hexn (started & Hran & Hall & Hlen)]
        end.
        cbn zeta in Hexn, Hran. split; [exact Hexn|].
        exists (tasks.command t :: started). cbn [tasks.ran] in Hran.
        rewrite Hran, <- app_assoc. cbn [length].
        split; [reflexivity|].
        split; [apply Forall_cons_2; [exact Htask | exact Hall] | lia].
      * cbn. split; [discriminate|]. exists [tasks.command t].
        split; [reflexivity|].
        split; [apply Forall_cons_2; [exact Htask | apply Forall_nil_2]
               | cbn [length]; lia].
      * cbn. split; [discriminate|]. exists [tasks.command t].
        split; [reflexivity|].
        split; [apply Forall_cons_2; [exact Htask | apply Forall_nil_2]
               | cbn [length]; lia].
      * cbn. split; [discriminate|]. exists [tasks.command t].
        split; [reflexivity|].
        split; [apply Forall_cons_2; [exact Htask | apply Forall_nil_2]
               | cbn [length]; lia].
Qed.

(** X17. Only the commands of [TASKS] are started.  Whatever command of
    the tool is called and with whatever flags, no lookup in [TASKS]
    raises, and each process started is one of the commands that [TASKS]
    holds; at most three are started, by [all]. *)
Theorem only_task_commands_started (id : tasks.command_id)
    (dry_run verbose interactive : bool) (c : tasks.console) :
  let final := tasks.invoke PYTHON_EXECUTABLE subprocess_run id dry_run
                 verbose interactive c in
  (forall e, snd final <> inl (tasks.Exception e))
  /\ exists started,
       (fst final).(tasks.ran) = (c.(tasks.ran) ++ started)%list
       /\ Forall (tasks.is_task_command PYTHON_EXECUTABLE) started
       /\ (length started <= 3)%nat.
Proof.
  cbn zeta. destruct (decide (id = tasks.All)) as [->|Hid].
  - cbn [tasks.invoke]. unfold tasks.all_tasks.
    assert (Hnames : Forall (fun name =>
                       is_Some (tasks.TASKS PYTHON_EXECUTABLE !! name))
                       ["run-tests"; "build-image"; "run-image"])
      by (repeat constructor; eexists; reflexivity).
    destruct (for_tasks_started _ dry_run verbose Hnames c)
      as [Hexn (started & Hran & Hall & Hlen)].
    cbn zeta in Hexn, Hran.
    destruct (tasks.for_tasks _ _ _ dry_run verbose c) as [c' [[code|e]|[]]];
      cbn [fst snd] in *.
    + unfold mbind, tasks.Sys_bind, tasks.echo_err, tasks.exit. cbn.
      split; [discriminate|]. exists started. auto.
    + exfalso. exact (Hexn e eq_refl).
    + split; [discriminate|]. exists started. auto.
  - destruct (invoke_single id dry_run verbose interactive c Hid)
      as [Htask ->].
    destruct dry_run.
    + rewrite run_command_dry. cbn. split; [discriminate|].
      exists []. rewrite app_nil_r. split; [reflexivity|].
      split; [constructor | cbn; lia].
    + rewrite run_command_wet. cbn zeta.
      destruct (subprocess_run _ _); cbn; (split; [discriminate|]);
        eexists; (split; [reflexivity|]);
        (split; [apply Forall_cons_2; [exact Htask | apply Forall_nil_2]
                | cbn; lia]).
Qed.

End TaskRunner.

Lemma run_command_exit_status_witness :
  let c := tasks.empty_console in
  let final := tasks.run_command tasks.build_fails tasks.build_command
                 false true c in
  snd final = inl (tasks.SystemExit 2)
  /\ (fst final).(tasks.ran) = [tasks.build_command]
  /\ exists line, (fst final).(tasks.err) = [line].
Proof.
  intros c final.
  destruct (run_command_exit_status tasks.build_fails tasks.build_command
              true c) as (Hran & Hres & _ & Herr).
  split; [exact Hres|]. split; [exact Hran|].
  apply Herr. discriminate.
Defined.

Lemma verbose_adds_output_only_witness :
  let loud := tasks.invoke "python" tasks.build_fails tasks.All false true
                false tasks.empty_console in
  let quiet := tasks.invoke "python" tasks.build_fails tasks.All false false
                 false tasks.empty_console in
  snd loud = snd quiet
  /\ snd quiet = inl (tasks.SystemExit 2)
  /\ (fst loud).(tasks.ran) = (fst quiet).(tasks.ran)
  /\ (fst loud).(tasks.out) <> (fst quiet).(tasks.out).
Proof.
  intros loud quiet.
  assert (Hsame : tasks.same_but_out tasks.empty_console tasks.empty_console)
    by (split; reflexivity).
  destruct (verbose_adds_output_only "python" tasks.build_fails tasks.All
              false false tasks.empty_console tasks.empty_console Hsame)
    as (Hres & Hran & _).
  split; [exact Hres|]. split; [vm_compute; reflexivity|].
  split; [exact Hran|]. vm_compute. discriminate.
Defined.

Lemma all_tasks_stops_at_first_failure_witness :
  let final := tasks.all_tasks "python" tasks.build_fails false false
                 tasks.empty_console in
  snd final = inl (tasks.SystemExit 2)
  /\ (fst final).(tasks.ran)
     = [tasks.tests_command "python"; tasks.build_command].
Proof.
  intros final.
  destruct (all_tasks_stops_at_first_failure "python" tasks.build_fails
              false tasks.empty_console) as (_ & Hbuild & _).
  destruct (Hbuild 2 eq_refl eq_refl) as (Hres & Hran & _).
  split; [exact Hres | exact Hran].
Defined.

Example all_tasks_succeed :
  tasks.all_tasks "python" tasks.all_succeed false false tasks.empty_console
  = ({| tasks.ran := [tasks.tests_command "python"; tasks.build_command;
                      tasks.image_command];
        tasks.out := []; tasks.err := [] |}, inr tt).
Proof. reflexivity. Qed.

(** ** The calls to the providers *)

Section Providers.

Variables Message Response : Type.
Variable openai_create :
  list base.request -> base.request -> string + list Message.
Variable anthropic_create :
  list base.request -> base.request -> string + Response.




(** X19. Calls that send nothing.  If the provider of the object is
    neither [openai] nor [anthropic], [call_api] returns [None], sends
    nothing and logs nothing.  If the provider is [openai] but the session
    is a client of Anthropic, or the other way round, it sends nothing,
    logs the error and raises [ValueError]. *)
Theorem call_api_without_request (self : Expert) (s : base.session)
    (prompt requested : string) (kwargs : gmap string value) (n : base.net) :
  let final := base.call_api Message Response openai_create anthropic_create
                 self s prompt requested kwargs n in
  let refused text :=
    ({| base.sent := n.(base.sent);
        base.logged := n.(base.logged)
                       ++ ["Error during API call: " +:+ text] |},
     inl (base.ValueError text)) in
  (self.(provider) <> "openai" -> self.(provider) <> "anthropic" ->
     final = (n, inr (base.ReturnedNone Message Response)))
  /\ (forall key, self.(provider) = "openai" -> s = base.Anthropic key ->
        final = refused "OpenAI API client not initialized correctly.")
  /\ (forall key, self.(provider) = "anthropic" -> s = base.OpenAI key ->
        final = refused "Anthropic API client not initialized correctly.").
Proof.
  cbn zeta. unfold base.call_api, base.log_and_raise.
  split; [|split].
  - intros H1 H2.
    destruct (String.eqb_spec (provider self) "openai"); [contradiction|].
    destruct (String.eqb_spec (provider self) "anthropic"); [contradiction|].
    reflexivity.
  - intros key -> ->. reflexivity.
  - intros key -> ->. reflexivity.
Qed.


Lemma call_api_raises (self : Expert) (s : base.session)
    (prompt requested : string) (kwargs : gmap string value) (n : base.net)
    (e : base.raised) :
  snd (base.call_api Message Response openai_create anthropic_create
         self s prompt requested kwargs n) = inl e ->
  (fst (base.call_api Message Response openai_create anthropic_create
          self s prompt requested kwargs n)).(base.logged)
  = (n.(base.logged) ++ ["Error during API call: " +:+ base.str_raised e])%list.
Proof.
  unfold base.call_api, base.log_and_raise.
  destruct (String.eqb (provider self) "openai").
  - destruct s; cbn [base._call_openai];
      unfold mbind, base.Net_bind, base.send, mret, base.Net_ret, base.raise.
    + destruct (openai_create _ _) as [text|[|m rest]]; cbn;
        intros H; inversion H; subst; reflexivity.
    + cbn. intros H; inversion H; subst; reflexivity.
  - destruct (String.eqb (provider self) "anthropic").
    + destruct s; cbn [base._call_anthropic];
        unfold mbind, base.Net_bind, base.send, mret, base.Net_ret, base.raise.
      * cbn. intros H; inversion H; subst; reflexivity.
      * destruct (anthropic_create _ _) as [text|resp]; cbn;
          intros H; inversion H; subst; reflexivity.
    + cbn. discriminate.
Qed.

End Providers.


Lemma call_api_without_request_witness :
  snd (base.call_api string string run_expert.counting_provider
         run_expert.no_anthropic alice (base.Anthropic "test_api_key")
         "Hello" "" ∅ {| base.sent := []; base.logged := [] |})
  = inl (base.ValueError "OpenAI API client not initialized correctly.").
Proof.
  destruct (call_api_without_request string string
              run_expert.counting_provider run_expert.no_anthropic
              alice (base.Anthropic "test_api_key") "Hello" "" ∅
              {| base.sent := []; base.logged := [] |}) as (_ & Hwrong & _).
  rewrite (Hwrong "test_api_key" eq_refl eq_refl). reflexivity.
Defined.

(** ** The consultancy session *)



Section Session.

Variables Message Response : Type.
Variable openai_create :
  list base.request -> base.request -> string + list Message.
Variable anthropic_create :
  list base.request -> base.request -> string + Response.
Variable message_content : Message -> string.
Variable response_content : Response -> string.
Variable session : base.session.

Lemma session_construct_argument (story transcript : string)
    (self : Expert) (n : base.net) :
  run_expert.construct_argument Message Response openai_create
    anthropic_create session story transcript
    {| run_expert.consultant := self; run_expert.network := n |}
  = match render self story transcript
            (new_argument_key self.(_current_round))
            (thinking_key consultant self.(_current_round)) with
    | inl e =>
        ({| run_expert.consultant := self; run_expert.network := n |},
         inl (run_expert.ExpertRaised e))
    | inr text =>
        match base.call_api Message Response openai_create anthropic_create
                (advance text self) session text ""
                {[ "max_tokens" := VInt 1000 ]} n with
        | (n', inl e) =>
            ({| run_expert.consultant := advance text self;
                run_expert.network := n' |}, inl (run_expert.CallRaised e))
        | (n', inr r) =>
            ({| run_expert.consultant := advance text self;
                run_expert.network := n' |}, inr r)
        end
    end.
Proof.
  unfold run_expert.construct_argument, run_expert.call_api, mbind,
    run_expert.Run_bind, run_expert.method, run_expert.call.
  cbn [run_expert.consultant run_expert.network].
  change (Consultant.construct_argument story transcript self)
    with (construct_argument_of consultant story transcript self).
  rewrite construct_argument_unfold.
  destruct (render self story transcript _ _) as [e|text]; reflexivity.
Qed.

(** X20. A call that fails still uses up the round.  The function
    [construct_argument] of the session first has the consultant build the
    prompt and then calls the provider.  If the consultant raises, nothing
    is sent and nothing changes.  If the consultant returns a text, its
    round counter has gone up and the text is stored before the call, and
    this stays so when the call then raises: the consultant is the one
    advanced by the text whatever the call does. *)
Theorem api_failure_consumes_round (story transcript : string)
    (w : run_expert.world) :
  let attempt := Consultant.construct_argument story transcript
                   w.(run_expert.consultant) in
  let final := run_expert.construct_argument Message Response openai_create
                 anthropic_create session story transcript w in
  (forall e, snd attempt = inl e ->
     final = (w, inl (run_expert.ExpertRaised e)))
  /\ (forall text, snd attempt = inr text ->
        (fst final).(run_expert.consultant)
        = advance text w.(run_expert.consultant)
        /\ (forall e, snd final = inl e -> exists e',
              e = run_expert.CallRaised e'
              /\ (fst final).(run_expert.network).(base.logged)
                 = (w.(run_expert.network).(base.logged)
                    ++ ["Error during API call: " +:+ base.str_raised e'])%list)).
Proof.
  cbn zeta. destruct w as [self n]. cbn [run_expert.consultant].
  rewrite session_construct_argument.
  change (Consultant.construct_argument story transcript self)
    with (construct_argument_of consultant story transcript self).
  rewrite construct_argument_unfold.
  destruct (render self story transcript _ _) as [e|text]; cbn [fst snd].
  - split; [|discriminate]. intros e' H. inversion H. reflexivity.
  - split; [discriminate|]. intros text' H. inversion H; subst text'.
    pose proof (call_api_raises Message Response openai_create
                  anthropic_create (advance text self) session text ""
                  {[ "max_tokens" := VInt 1000 ]} n) as Hlog.
    destruct (base.call_api _ _ _ _ _ _ _ _ _ n) as [n' [e|r]];
      cbn [fst snd run_expert.consultant run_expert.network] in *.
    + split; [reflexivity|]. intros e0 H0. inversion H0; subst.
      exists e. split; [reflexivity|]. apply Hlog. reflexivity.
    + split; [reflexivity|]. discriminate.
Qed.







End Session.

Lemma api_failure_consumes_round_witness :
  let final := run_expert.construct_argument string string
                 run_expert.failing_provider run_expert.no_anthropic
                 (base.OpenAI "test_api_key") "story" ""
                 {| run_expert.consultant := consultant_in_position carol;
                    run_expert.network :=
                      run_expert.carol_world.(run_expert.network) |} in
  snd final
  = inl (run_expert.CallRaised (base.ProviderError "Connection error."))
  /\ (fst final).(run_expert.consultant).(_current_round) = 1.
Proof.
  intros final.
  destruct (api_failure_consumes_round string string
              run_expert.failing_provider run_expert.no_anthropic
              (base.OpenAI "test_api_key") "story" ""
              {| run_expert.consultant := consultant_in_position carol;
                 run_expert.network :=
                   run_expert.carol_world.(run_expert.network) |})
    as [_ Hreturned].
  destruct (Hreturned "story||opening(Q,D)|first|100")
    as [Hadvanced _]; [vm_compute; reflexivity|].
  fold final in Hadvanced.
  split; [vm_compute; reflexivity|].
  rewrite Hadvanced. vm_compute. reflexivity.
Defined.


Example main_transcript_shown :
  snd (run_expert.main string string run_expert.counting_provider
         run_expert.no_anthropic id id (base.OpenAI "test_api_key")
         "Q" "D" "O" "story" run_expert.carol_world)
  = inr (run_expert.transcript_of ["0"; "1"; "2"; "3"]).
Proof. vm_compute. reflexivity. Qed.

(** ** The constructor of the interactive debater *)



